(** * BharatConnect AI backend: eligibility engine, rate limiter, chat session flow

    A shallow embedding of the Python backend (Backend/data/schemes.py,
    Backend/utils/rate_limit.py, Backend/services/llm_service.py,
    Backend/models/schemas.py and Backend/routes/chat.py) together with the
    properties of it that the specification states.

    Conventions of the embedding:
    - a Python [int] is a [Z]; a Python [str] is a [string] of ASCII
      characters (the character classes [\d], [\w], [\s] and [str.lower] are
      exact on code points below 128; a byte above 127 is treated as a symbol:
      not a digit, not a word character, not white space, unchanged by
      [lower]);
    - a Python [float] is an IEEE 754 binary64 value, a [spec_float] of the
      standard library at precision 53 and maximal exponent 1024;
    - a [datetime] is a number of microseconds, a [Z]; [datetime.now()] and
      [uuid.uuid4()] are inputs of the functions that call them;
    - a raised exception is the [Raise] outcome of the [result] type;
    - a dictionary with string keys is a [gmap string _]; the scheme
      dictionaries, which are copied and then written to, live in an explicit
      heap of objects addressed by location. *)

From Stdlib Require Import ZArith String Ascii List Bool Lia DecimalString SpecFloat.
From stdpp Require Import base option list gmap strings.

Local Open Scope string_scope.
Local Open Scope list_scope.
Local Open Scope Z_scope.

(** ** Exceptions and results *)

Inductive exn : Type :=
  | TypeError
  | OverflowError
  | ValueError
  | HTTPException (status_code : Z) (detail : string).

Inductive result (A : Type) : Type :=
  | Ok (a : A)
  | Raise (e : exn).
Arguments Ok {A} a.
Arguments Raise {A} e.

#[export] Instance result_ret : MRet result := fun A a => Ok a.

#[export] Instance result_bind : MBind result := fun A B k r =>
  match r with
  | Ok a => k a
  | Raise e => Raise e
  end.

(** ** Python strings *)

Module PyStr.

(** [sep.join(l)] *)
Fixpoint join (sep : string) (l : list string) : string :=
  match l with
  | [] => ""
  | [x] => x
  | x :: rest => x +:+ sep +:+ join sep rest
  end.

(** [str(n)] / [f"{n}"] for an int. *)
Definition str (n : Z) : string := NilZero.string_of_int (Z.to_int n).

(** Insert a comma before every complete group of three characters that
    follows; the argument is the digit string reversed. *)
Fixpoint group3 (rev_digits : list ascii) : list ascii :=
  match rev_digits with
  | a :: b :: c :: ((_ :: _) as rest) => a :: b :: c :: "," %char :: group3 rest
  | l => l
  end.

(** [f"{n:,}"] for an int: the decimal digits grouped by thousands. *)
Definition format_comma (n : Z) : string :=
  let digits := list_ascii_of_string (str (Z.abs n)) in
  let grouped := string_of_list_ascii (rev (group3 (rev digits))) in
  if n <? 0 then "-" +:+ grouped else grouped.

Definition code (c : ascii) : nat := nat_of_ascii c.

(** [\d] *)
Definition is_digit (c : ascii) : bool :=
  (48 <=? code c)%nat && (code c <=? 57)%nat.

(** [\w]: letters, digits and the underscore. *)
Definition is_word (c : ascii) : bool :=
  is_digit c
  || ((65 <=? code c)%nat && (code c <=? 90)%nat)
  || ((97 <=? code c)%nat && (code c <=? 122)%nat)
  || (code c =? 95)%nat.

(** [\s] and the characters removed by [str.strip()]: tab, line feed,
    vertical tab, form feed, carriage return, the four separators
    0x1c-0x1f and the space. *)
Definition is_space (c : ascii) : bool :=
  ((9 <=? code c)%nat && (code c <=? 13)%nat)
  || ((28 <=? code c)%nat && (code c <=? 32)%nat).

Definition lower_char (c : ascii) : ascii :=
  if (65 <=? code c)%nat && (code c <=? 90)%nat
  then ascii_of_nat (code c + 32)
  else c.

(** [s.lower()] *)
Fixpoint lower (s : string) : string :=
  match s with
  | EmptyString => EmptyString
  | String c rest => String (lower_char c) (lower rest)
  end.

Fixpoint lstrip (s : string) : string :=
  match s with
  | String c rest => if is_space c then lstrip rest else s
  | EmptyString => EmptyString
  end.

Definition rev_string (s : string) : string :=
  string_of_list_ascii (rev (list_ascii_of_string s)).

(** [s.strip()] *)
Definition strip (s : string) : string :=
  rev_string (lstrip (rev_string (lstrip s))).

(** [needle in hay] *)
Fixpoint contains (needle hay : string) : bool :=
  String.prefix needle hay
  || match hay with
     | EmptyString => false
     | String _ rest => contains needle rest
     end.

(** [int(s)] for a string of decimal digits. *)
Definition int_of_digits (s : string) : Z :=
  fold_left (fun acc c => 10 * acc + Z.of_nat (code c - 48))
            (list_ascii_of_string s) 0.

(** [str(x)] for an optional string, as an f-string renders it. *)
Definition str_opt (x : option string) : string :=
  match x with
  | Some s => s
  | None => "None"
  end.

End PyStr.

(** ** Python floats (binary64) *)

Module PyFloat.

Definition prec : Z := 53.
Definition emax : Z := 1024.

(** The float nearest to the integer [n]. *)
Definition of_Z (n : Z) : spec_float := binary_normalize prec emax n 0 false.

(** [float(s)] for [s] a digit string with an optional fractional part:
    the float nearest (ties to even) to the decimal number, infinity when
    it is out of range. [int_part] and [frac_part] are the digits before
    and after the point. *)
Definition of_decimal (int_part frac_part : string) : spec_float :=
  let n := PyStr.int_of_digits (int_part +:+ frac_part) in
  let d := 10 ^ Z.of_nat (String.length frac_part) in
  match n, d with
  | Zpos pn, Zpos pd =>
      SFdiv prec emax (S754_finite false pn 0) (S754_finite false pd 0)
  | _, _ => S754_zero false
  end.

(** [x * y] *)
Definition mul (x y : spec_float) : spec_float := SFmul prec emax x y.

(** [int(x)]: truncation towards zero; infinities and NaN raise. *)
Definition to_int (x : spec_float) : result Z :=
  match x with
  | S754_zero _ => Ok 0
  | S754_finite s m e =>
      let mag := if 0 <=? e then Zpos m * 2 ^ e else Zpos m / 2 ^ (- e) in
      Ok (if s then - mag else mag)
  | S754_infinity _ => Raise OverflowError
  | S754_nan => Raise ValueError
  end.

End PyFloat.

(** ** Backend/models/schemas.py: the user profile *)

Module UserProfile.

(** The four optional fields; [None] is an unset field. The dictionary
    built by [to_dict] has exactly these four keys, so the same record
    stands for it. *)
Record t : Type := Build {
  age : option Z;
  income : option Z;
  state : option string;
  category : option string
}.

(** [UserProfile()] *)
Definition empty : t := Build None None None None.


Definition to_dict (self : t) : t := self.

Definition set_age (v : option Z) (self : t) : t :=
  Build v (income self) (state self) (category self).
Definition set_income (v : option Z) (self : t) : t :=
  Build (age self) v (state self) (category self).
Definition set_state (v : option string) (self : t) : t :=
  Build (age self) (income self) v (category self).
Definition set_category (v : option string) (self : t) : t :=
  Build (age self) (income self) (state self) v.

End UserProfile.

(** ** Backend/data/schemes.py: the catalog and the eligibility engine *)

Module scheme.

(** A scheme dictionary. The ten keys of a catalog entry are always
    present; the key [eligibilityReason] is present only in the copies
    that [get_eligible_schemes] returns. *)
Record t : Type := Build {
  id : string;
  name : string;
  state : string;
  category : string;
  income_max : Z;
  age_min : Z;
  age_max : Z;
  benefits : string;
  documents : list string;
  apply_link : string;
  eligibilityReason : option string
}.

(** [d["eligibilityReason"] = reason] *)
Definition set_eligibilityReason (reason : string) (d : t) : t :=
  Build (id d) (name d) (state d) (category d) (income_max d) (age_min d)
        (age_max d) (benefits d) (documents d) (apply_link d) (Some reason).

End scheme.

(** The ten entries of [SCHEMES], in source order. *)
Definition SCHEMES_data : list scheme.t := [
  scheme.Build "scheme_1" "National Scholarship for Higher Education"
    "ALL" "ALL" 250000 17 25
    "Full tuition fee reimbursement up to ₹50,000 per year plus ₹10,000 annual book allowance for undergraduate students."
    ["Aadhaar Card"; "Income Certificate"; "Previous Year Marksheet"; "Bank Passbook"; "College Admission Letter"]
    "https://scholarships.gov.in" None;
  scheme.Build "scheme_2" "PM YASASVI Scholarship"
    "ALL" "OBC" 250000 15 25
    "Annual scholarship of ₹75,000 for Class 9-10 students and ₹1,25,000 for Class 11-12 students from OBC, EBC, and DNT categories."
    ["Caste Certificate"; "Income Certificate"; "Aadhaar Card"; "School Bonafide"; "Parent ID Proof"]
    "https://yet.nta.ac.in" None;
  scheme.Build "scheme_3" "Post Matric Scholarship for SC Students"
    "ALL" "SC" 300000 15 35
    "Complete tuition and examination fees covered, plus monthly maintenance allowance of ₹550-1200 based on course level."
    ["Caste Certificate"; "Income Certificate"; "Previous Marksheet"; "Aadhaar Card"; "Bank Account Details"]
    "https://scholarships.gov.in" None;
  scheme.Build "scheme_4" "Maharashtra State Merit Scholarship"
    "Maharashtra" "ALL" 800000 16 25
    "Merit-based scholarship of ₹5,000-25,000 per year for students scoring above 75% in board exams."
    ["Domicile Certificate"; "Marksheet"; "Income Certificate"; "Aadhaar Card"]
    "https://mahadbt.maharashtra.gov.in" None;
  scheme.Build "scheme_5" "Karnataka Vidyasiri Scholarship"
    "Karnataka" "ALL" 200000 17 25
    "Annual scholarship ranging from ₹11,000 to ₹50,000 based on course for students from economically weaker sections."
    ["Income Certificate"; "Caste Certificate"; "Aadhaar Card"; "College ID"; "Fee Receipt"]
    "https://karepass.karnataka.gov.in" None;
  scheme.Build "scheme_6" "Central Sector Scholarship for College Students"
    "ALL" "ALL" 450000 17 25
    "₹12,000 per annum for graduation (first 3 years), ₹20,000 for post-graduation. Top 20 percentile of 12th board students."
    ["12th Marksheet"; "Income Certificate"; "Aadhaar Card"; "Bank Details"; "College Admission Proof"]
    "https://scholarships.gov.in" None;
  scheme.Build "scheme_7" "Pragati Scholarship for Girl Students"
    "ALL" "ALL" 800000 17 30
    "₹50,000 per year for girl students pursuing technical education. Only 2 girls per family eligible."
    ["Aadhaar Card"; "Income Certificate"; "Previous Marksheet"; "Bank Account"; "Institute Bonafide"]
    "https://aicte-pragati-saksham-gov.in" None;
  scheme.Build "scheme_8" "UP Scholarship for Minority Students"
    "Uttar Pradesh" "Minority" 200000 14 30
    "Full fee reimbursement for minority community students including Muslims, Christians, Sikhs, Buddhists, and Parsis."
    ["Minority Certificate"; "Income Certificate"; "Aadhaar"; "Previous Marksheet"; "Bank Passbook"]
    "https://scholarship.up.gov.in" None;
  scheme.Build "scheme_9" "Pre Matric Scholarship for ST Students"
    "ALL" "ST" 200000 10 18
    "Monthly stipend of ₹150-350 for day scholars and ₹500-750 for hostellers studying in Class 9-10."
    ["Tribe Certificate"; "Income Certificate"; "School ID"; "Aadhaar Card"; "Parent Bank Account"]
    "https://scholarships.gov.in" None;
  scheme.Build "scheme_10" "Tamil Nadu Free Education Scheme"
    "Tamil Nadu" "ALL" 500000 6 25
    "Complete fee waiver in government schools and colleges plus free textbooks, uniforms, and mid-day meals."
    ["Community Certificate"; "Income Certificate"; "Aadhaar Card"; "School Bonafide"]
    "https://tnscholarships.gov.in" None
].

(** A value read from the profile dictionary and used as a number:
    comparing [None] with an int raises [TypeError]. *)
Definition as_int (v : option Z) : result Z :=
  match v with
  | Some n => Ok n
  | None => Raise TypeError
  end.

Definition is_eligible (user_profile : UserProfile.t) (sch : scheme.t)
  : result (bool * string) :=
  let reasons : list string := [] in
  (* Age check *)
  age ← as_int (UserProfile.age user_profile);
  if (age <? scheme.age_min sch) || (age >? scheme.age_max sch) then
    Ok (false, "Age must be between " +:+ PyStr.str (scheme.age_min sch)
               +:+ "-" +:+ PyStr.str (scheme.age_max sch))
  else
  let reasons := (reasons ++
    ["Age " +:+ PyStr.str age +:+ " is within " +:+ PyStr.str (scheme.age_min sch)
     +:+ "-" +:+ PyStr.str (scheme.age_max sch) +:+ " range"])%list in
  (* Income check *)
  income ← as_int (UserProfile.income user_profile);
  if income >? scheme.income_max sch then
    Ok (false, "Income must be below ₹" +:+ PyStr.format_comma (scheme.income_max sch))
  else
  let reasons := (reasons ++
    ["Income ₹" +:+ PyStr.format_comma income +:+ " is below limit"])%list in
  (* Category check *)
  if bool_decide (scheme.category sch <> "ALL")
     && bool_decide (Some (scheme.category sch) <> UserProfile.category user_profile) then
    Ok (false, "This scheme is for " +:+ scheme.category sch +:+ " category only")
  else
  let reasons :=
    if bool_decide (scheme.category sch <> "ALL")
    then (reasons ++ [PyStr.str_opt (UserProfile.category user_profile) +:+ " category matches"])%list
    else reasons in
  (* State check *)
  if bool_decide (scheme.state sch <> "ALL")
     && bool_decide (Some (scheme.state sch) <> UserProfile.state user_profile) then
    Ok (false, "This scheme is only for " +:+ scheme.state sch)
  else
  let reasons :=
    if bool_decide (scheme.state sch <> "ALL")
    then (reasons ++ [PyStr.str_opt (UserProfile.state user_profile) +:+ " state matches"])%list
    else reasons in
  Ok (true, PyStr.join " • " reasons).

(** *** The heap of scheme dictionaries

    [SCHEMES] is a list of references to dictionary objects. An object is
    addressed by its index in the heap; a new object is allocated at the
    end. A copy is shallow: it shares the list under [documents] with its
    original, and nothing in the program writes to that list. *)

Abbreviation loc := nat (only parsing).
Abbreviation heap := (list scheme.t) (only parsing).

(** The heap after the module is loaded, and the list [SCHEMES] of
    references into it. *)
Definition initial_heap : heap := SCHEMES_data.
Definition SCHEMES : list loc := seq 0 (length SCHEMES_data).

(** [d.copy()]: a new dictionary object with the same items. *)
Definition dict_copy (h : heap) (l : loc) : option (heap * loc) :=
  d ← h !! l; Some ((h ++ [d])%list, length h).

(** [d[key] = value] on the object at [l]. *)
Definition dict_setitem (h : heap) (l : loc) (f : scheme.t -> scheme.t) : heap :=
  alter f l h.

(** One iteration of the loop of [get_eligible_schemes], on the heap and
    the list [eligible_schemes] built so far. The heap is returned also when
    the iteration raises. A reference that points nowhere cannot occur in
    Python and leaves the state as it is. *)
Definition get_eligible_schemes_step (user_profile : UserProfile.t)
    (h : heap) (eligible_schemes : list loc) (sch_ref : loc)
  : heap * result (list loc) :=
  match h !! sch_ref with
  | None => (h, Ok eligible_schemes)
  | Some sch =>
      match is_eligible user_profile sch with
      | Raise e => (h, Raise e)
      | Ok (eligible, reason) =>
          if eligible : bool then
            match dict_copy h sch_ref with
            | Some (h1, scheme_with_reason) =>
                let h2 := dict_setitem h1 scheme_with_reason
                            (scheme.set_eligibilityReason reason) in
                (h2, Ok (eligible_schemes ++ [scheme_with_reason])%list)
            | None => (h, Ok eligible_schemes)
            end
          else (h, Ok eligible_schemes)
      end
  end.

Fixpoint get_eligible_schemes_loop (user_profile : UserProfile.t)
    (schemes : list loc) (h : heap) (eligible_schemes : list loc)
  : heap * result (list loc) :=
  match schemes with
  | [] => (h, Ok eligible_schemes)
  | sch_ref :: rest =>
      match get_eligible_schemes_step user_profile h eligible_schemes sch_ref with
      | (h1, Ok eligible_schemes1) =>
          get_eligible_schemes_loop user_profile rest h1 eligible_schemes1
      | (h1, Raise e) => (h1, Raise e)
      end
  end.

(** [get_eligible_schemes(user_profile)]: the heap it leaves and the list
    of references it returns. *)
Definition get_eligible_schemes (h : heap) (user_profile : UserProfile.t)
  : heap * result (list loc) :=
  get_eligible_schemes_loop user_profile SCHEMES h [].

(** The dictionaries a list of references denotes. *)
Definition deref (h : heap) (refs : list loc) : list scheme.t :=
  omap (fun l => h !! l) refs.

(** ** Backend/utils/rate_limit.py *)

Module RateLimiter.

(** [requests] maps a key to the list of the times of its admitted
    requests, oldest first. *)
Record t : Type := Build {
  max_requests : Z;
  window_seconds : Z;
  requests : gmap string (list Z)
}.

(** [RateLimiter(max_requests, window_seconds)] *)
Definition init (max_requests window_seconds : Z) : t :=
  Build max_requests window_seconds ∅.

Definition set_requests (self : t) (r : gmap string (list Z)) : t :=
  Build (max_requests self) (window_seconds self) r.

(** [timedelta(seconds=s)], in microseconds. *)
Definition timedelta_seconds (s : Z) : Z := s * 1000000.

(** The comprehension [[t for t in l if t > window_start]]. *)
Definition prune (window_start : Z) (l : list Z) : list Z :=
  filter (fun req_time => window_start < req_time) l.

Definition is_allowed (self : t) (now : Z) (key : string) : t * (bool * Z) :=
  let window_start := now - timedelta_seconds (window_seconds self) in
  let requests1 :=
    match requests self !! key with
    | None => <[key := []]> (requests self)
    | Some _ => requests self
    end in
  (* Remove old requests outside the window *)
  let requests2 := <[key := prune window_start (requests1 !!! key)]> requests1 in
  (* Check if under limit *)
  let remaining := max_requests self - Z.of_nat (length (requests2 !!! key)) in
  if remaining >? 0 then
    (set_requests self (<[key := (requests2 !!! key ++ [now])%list]> requests2),
     (true, remaining))
  else
    (set_requests self requests2, (false, 0)).

Definition cleanup (self : t) (now : Z) : t :=
  let window_start := now - timedelta_seconds (window_seconds self) in
  let pruned := prune window_start <$> requests self in
  set_requests self (filter (fun kv => kv.2 <> []) pruned).

End RateLimiter.

(** The three global limiters. *)
Definition sms_limiter : RateLimiter.t := RateLimiter.init 5 60.
Definition chat_limiter : RateLimiter.t := RateLimiter.init 20 60.

(** ** Backend/services/llm_service.py *)

Module LLMService.

Record t : Type := Build { available : bool }.

Inductive chat_message : Type :=
  | SystemMessage (content : string)
  | HumanMessage (content : string)
  | AIMessage (content : string).

(** An entry of the conversation history: its ["role"] and ["content"]. *)
Definition history_entry : Type := (string * string)%type.

Definition nl : string := String (ascii_of_nat 10) EmptyString.

Definition count_str {A} (l : list A) : string := PyStr.str (Z.of_nat (length l)).

Definition _generate_with_template (user_message : string)
    (eligible_schemes : list scheme.t) : string :=
  let count := length eligible_schemes in
  match eligible_schemes with
  | [] =>
      "Based on your profile, I couldn't find any schemes you're currently eligible for. However, eligibility criteria can change, so I recommend checking back periodically or exploring options to meet the requirements for specific schemes."
  | [sch] =>
      "Great news! You're eligible for **" +:+ scheme.name sch
      +:+ "**. This scheme offers: " +:+ scheme.benefits sch
  | _ =>
      if (count <=? 3)%nat then
        let scheme_names :=
          PyStr.join ", "
            (map (fun s => "**" +:+ scheme.name s +:+ "**") eligible_schemes) in
        "Excellent! You're eligible for " +:+ count_str eligible_schemes
        +:+ " schemes: " +:+ scheme_names
        +:+ ". Each scheme has unique benefits tailored to your needs. Check out the details below!"
      else
        "Wonderful! You're eligible for **" +:+ count_str eligible_schemes
        +:+ " government schemes**! This gives you multiple options to choose from based on your specific educational goals. Review the schemes below to see which ones align best with your needs."
  end.

Definition _build_system_prompt (eligible_schemes : list scheme.t) : string :=
  let scheme_info :=
    PyStr.join (nl +:+ nl)
      (map (fun s => "Scheme: " +:+ scheme.name s +:+ nl
                     +:+ "Benefits: " +:+ scheme.benefits s)
           (take 5 eligible_schemes)) in
  "You are BharatConnect AI, a helpful assistant for Indian government scholarship schemes.

Your role:
- Help users understand which schemes they're eligible for
- Explain scheme benefits clearly and concisely
- Guide users through the application process
- Be encouraging and supportive

Important guidelines:
- ONLY discuss the schemes provided below - do not make up or hallucinate schemes
- Keep responses conversational and friendly
- Use simple language suitable for students
- Be concise (2-3 sentences maximum)

Eligible schemes for this user:
" +:+ scheme_info +:+ "

Current context: The user is eligible for " +:+ count_str eligible_schemes +:+ " scheme(s).
".

(** The messages sent to the model: the system prompt, the last five
    entries of the history, and the user's message. *)
Definition build_messages (user_message : string)
    (eligible_schemes : list scheme.t)
    (conversation_history : list history_entry) : list chat_message :=
  let system_prompt := _build_system_prompt eligible_schemes in
  let recent := drop (length conversation_history - 5) conversation_history in
  ([SystemMessage system_prompt]
   ++ omap (fun msg : history_entry =>
              if String.eqb msg.1 "user" then Some (HumanMessage msg.2)
              else if String.eqb msg.1 "assistant" then Some (AIMessage msg.2)
              else None) recent
   ++ [HumanMessage user_message])%list.

Section WithGemini.

(** [gemini_chat.invoke(messages).content]: the text-generation
    collaborator, which answers or raises. *)
Variable gemini_chat_invoke : list chat_message -> result string.

(** The body of the [try] block and its [except Exception] handler. *)
Definition _generate_with_gemini (user_message : string)
    (eligible_schemes : list scheme.t)
    (user_profile : UserProfile.t)
    (conversation_history : list history_entry) : string :=
  let attempt :=
    content ← gemini_chat_invoke
                (build_messages user_message eligible_schemes conversation_history);
    Ok (PyStr.strip content) in
  match attempt with
  | Ok text => text
  | Raise _ => _generate_with_template user_message eligible_schemes
  end.

Definition generate_response (self : t) (user_message : string)
    (eligible_schemes : list scheme.t)
    (user_profile : UserProfile.t)
    (conversation_history : list history_entry) : string :=
  if available self then
    _generate_with_gemini user_message eligible_schemes user_profile
                          conversation_history
  else
    _generate_with_template user_message eligible_schemes.

End WithGemini.

Definition is_available (self : t) : bool := available self.

End LLMService.

(** ** Backend/routes/chat.py *)

Module Session.

Record t : Type := Build {
  user_profile : UserProfile.t;
  conversation_history : list LLMService.history_entry;
  last_accessed : Z;
  session_token : string
}.

Definition set_user_profile (p : UserProfile.t) (s : t) : t :=
  Build p (conversation_history s) (last_accessed s) (session_token s).
Definition set_last_accessed (now : Z) (s : t) : t :=
  Build (user_profile s) (conversation_history s) now (session_token s).
Definition append_history (e : LLMService.history_entry) (s : t) : t :=
  Build (user_profile s) (conversation_history s ++ [e])%list
        (last_accessed s) (session_token s).

End Session.

Definition SESSION_TIMEOUT_MINUTES : Z := 30.

(** [timedelta(minutes=m)], in microseconds. *)
Definition timedelta_minutes (m : Z) : Z := m * 60 * 1000000.

(** The character class [[a-f0-9\-]]. *)
Definition session_id_char (c : ascii) : bool :=
  ((97 <=? PyStr.code c)%nat && (PyStr.code c <=? 102)%nat)
  || PyStr.is_digit c
  || (PyStr.code c =? 45)%nat.

(** [[a-f0-9\-]{n}] at the start of [s]: what follows the [n] characters. *)
Fixpoint match_session_id_chars (n : nat) (s : string) : option string :=
  match n with
  | O => Some s
  | S n' =>
      match s with
      | String c rest =>
          if session_id_char c then match_session_id_chars n' rest else None
      | EmptyString => None
      end
  end.

(** [$] without [re.MULTILINE]: at the end of the string, or just before a
    line feed that is the last character of the string. *)
Definition at_dollar (s : string) : bool :=
  match s with
  | EmptyString => true
  | String c EmptyString => (PyStr.code c =? 10)%nat
  | _ => false
  end.

(** [VALID_SESSION_ID_PATTERN.match(session_id)] is not [None], for the
    pattern [^[a-f0-9\-]{36}$]. *)
Definition VALID_SESSION_ID_PATTERN_match (session_id : string) : bool :=
  match match_session_id_chars 36 session_id with
  | Some rest => at_dollar rest
  | None => false
  end.

Definition validate_session_id (session_id : string) : result unit :=
  if negb (VALID_SESSION_ID_PATTERN_match session_id) then
    Raise (HTTPException 400 "Invalid session_id format. Must be a valid UUID.")
  else Ok tt.

(** [get_or_create_session(session_id)]; [now] is [datetime.now()] and
    [token] is [str(uuid.uuid4())]. Returns the session table and the
    session found or created. *)
Definition get_or_create_session (sessions : gmap string Session.t)
    (session_id : string) (now : Z) (token : string)
  : result (gmap string Session.t * Session.t) :=
  _ ← validate_session_id session_id;
  (* Clean up expired sessions *)
  let sessions1 :=
    filter (fun kv : string * Session.t =>
              ¬ (timedelta_minutes SESSION_TIMEOUT_MINUTES
                 < now - Session.last_accessed kv.2))
           sessions in
  (* Get or create session *)
  let session :=
    match sessions1 !! session_id with
    | None => Session.Build UserProfile.empty [] now token
    | Some s => Session.set_last_accessed now s
    end in
  Ok (<[session_id := session]> sessions1, session).

Definition get_next_profile_question (profile : UserProfile.t) : option string :=
  match UserProfile.age profile, UserProfile.income profile,
        UserProfile.state profile, UserProfile.category profile with
  | None, _, _, _ =>
      Some "To help you find the right schemes, I need a few details. Let's start with your age. How old are you?"
  | _, None, _, _ =>
      Some "Great! Now, what is your family's annual income in rupees?"
  | _, _, None, _ =>
      Some "Thank you! Which state are you from? (e.g., Maharashtra, Karnataka, Tamil Nadu, etc.)"
  | _, _, _, None =>
      Some "Almost done! What is your category? (General, SC, ST, OBC, EWS, or Minority)"
  | _, _, _, _ => None
  end.

(** *** Profile extraction *)

Definition non_word (c : option ascii) : bool :=
  match c with
  | None => true
  | Some c => negb (PyStr.is_word c)
  end.

Definition first_char (s : string) : option ascii :=
  match s with
  | String c _ => Some c
  | EmptyString => None
  end.

(** [re.search(r'\b(\d{1,2})\b', s).group(1)], where [prev] is the
    character before [s]. At a digit that follows no word character the
    pattern takes two digits when a second digit comes and no word
    character follows it, one digit when no word character follows the
    first; otherwise the search moves on by one character. *)
Fixpoint age_search (prev : option ascii) (s : string) : option string :=
  match s with
  | EmptyString => None
  | String c rest =>
      let here :=
        if PyStr.is_digit c && non_word prev then
          match rest with
          | String c2 rest2 =>
              if PyStr.is_digit c2 then
                if non_word (first_char rest2)
                then Some (String c (String c2 EmptyString)) else None
              else
                if non_word (Some c2) then Some (String c EmptyString) else None
          | EmptyString => Some (String c EmptyString)
          end
        else None in
      match here with
      | Some g => Some g
      | None => age_search (Some c) rest
      end
  end.

(** The longest prefix of digits: [\d*], greedy. *)
Fixpoint digit_run (s : string) : string :=
  match s with
  | String c rest => if PyStr.is_digit c then String c (digit_run rest) else EmptyString
  | EmptyString => EmptyString
  end.

(** What [\d*(?:,\d+)*(?:\.\d+)?] takes, greedily, at the start of [s]. *)
Fixpoint number_run (s : string) : string :=
  match s with
  | String c rest =>
      if PyStr.is_digit c then String c (number_run rest)
      else if (PyStr.code c =? 44)%nat then
        match first_char rest with
        | Some d => if PyStr.is_digit d then String c (number_run rest) else EmptyString
        | None => EmptyString
        end
      else if (PyStr.code c =? 46)%nat then
        match first_char rest with
        | Some d => if PyStr.is_digit d then String c (digit_run rest) else EmptyString
        | None => EmptyString
        end
      else EmptyString
  | EmptyString => EmptyString
  end.

(** [re.search(r'(\d+(?:,\d+)*(?:\.\d+)?)\s*(?:lakh|lakhs|l|k|thousand)?', s).group(1)]:
    the match starts at the first digit of [s]; what follows group 1 in the
    pattern also matches the empty string, so group 1 is the greedy run. *)
Fixpoint income_search (s : string) : option string :=
  match s with
  | EmptyString => None
  | String c rest =>
      if PyStr.is_digit c then Some (String c (number_run rest))
      else income_search rest
  end.

(** [s.replace(',', '')] *)
Fixpoint remove_commas (s : string) : string :=
  match s with
  | EmptyString => EmptyString
  | String c rest =>
      if (PyStr.code c =? 44)%nat then remove_commas rest
      else String c (remove_commas rest)
  end.

(** The text after the first [.] of [s], if any. *)
Fixpoint after_point (s : string) : string :=
  match s with
  | EmptyString => EmptyString
  | String c rest => if (PyStr.code c =? 46)%nat then rest else after_point rest
  end.

(** [float(s)] for [s] of the shape digits, or digits [.] digits. *)
Definition float_of_string (s : string) : spec_float :=
  PyFloat.of_decimal (digit_run s) (after_point s).

Definition states : list string := [
  "Andhra Pradesh"; "Arunachal Pradesh"; "Assam"; "Bihar"; "Chhattisgarh";
  "Goa"; "Gujarat"; "Haryana"; "Himachal Pradesh"; "Jharkhand"; "Karnataka";
  "Kerala"; "Madhya Pradesh"; "Maharashtra"; "Manipur"; "Meghalaya"; "Mizoram";
  "Nagaland"; "Odisha"; "Punjab"; "Rajasthan"; "Sikkim"; "Tamil Nadu";
  "Telangana"; "Tripura"; "Uttar Pradesh"; "Uttarakhand"; "West Bengal";
  "Delhi"; "Jammu and Kashmir"; "Ladakh"
].

Definition categories : list string :=
  ["General"; "SC"; "ST"; "OBC"; "EWS"; "Minority"].

(** The income the income branch computes from group 1 of the match. *)
Definition scaled_income (message_lower income_match : string) : spec_float :=
  let income_str := remove_commas income_match in
  let income := float_of_string income_str in
  (* Convert lakhs to rupees *)
  if PyStr.contains "lakh" message_lower || PyStr.contains "l" message_lower then
    PyFloat.mul income (PyFloat.of_Z 100000)
  else if PyStr.contains "k" message_lower || PyStr.contains "thousand" message_lower then
    PyFloat.mul income (PyFloat.of_Z 1000)
  else income.

Definition extract_profile_info (message : string) (profile : UserProfile.t)
  : result UserProfile.t :=
  let message_lower := PyStr.strip (PyStr.lower message) in
  (* Extract age *)
  if bool_decide (UserProfile.age profile = None) then
    match age_search None message with
    | Some g =>
        let age := PyStr.int_of_digits g in
        if (1 <=? age) && (age <=? 120)
        then Ok (UserProfile.set_age (Some age) profile)
        else Ok profile
    | None => Ok profile
    end
  (* Extract income *)
  else if bool_decide (UserProfile.income profile = None) then
    match income_search message_lower with
    | Some g =>
        income ← PyFloat.to_int (scaled_income message_lower g);
        Ok (UserProfile.set_income (Some income) profile)
    | None => Ok profile
    end
  (* Extract state *)
  else if bool_decide (UserProfile.state profile = None) then
    match List.find (fun st => PyStr.contains (PyStr.lower st) message_lower) states with
    | Some st => Ok (UserProfile.set_state (Some st) profile)
    | None => Ok profile
    end
  (* Extract category *)
  else if bool_decide (UserProfile.category profile = None) then
    match List.find (fun c => PyStr.contains (PyStr.lower c) message_lower) categories with
    | Some c => Ok (UserProfile.set_category (Some c) profile)
    | None => Ok profile
    end
  else Ok profile.

(** *** The chat endpoint *)

Record ChatRequest : Type := {
  session_id : string;
  message : string;
  user_profile : UserProfile.t
}.

Record ChatResponse : Type := {
  response : string;
  schemes : list scheme.t;
  next_question : option string
}.

(** The state of the server process that a chat request can reach: the
    chat rate limiter, the session table, the injected language-model
    service and the heap of scheme dictionaries. *)
Record server : Type := {
  srv_chat_limiter : RateLimiter.t;
  srv_sessions : gmap string Session.t;
  srv_llm_service : LLMService.t;
  srv_heap : heap
}.

Definition set_chat_limiter (l : RateLimiter.t) (st : server) : server :=
  {| srv_chat_limiter := l; srv_sessions := srv_sessions st;
     srv_llm_service := srv_llm_service st; srv_heap := srv_heap st |}.
Definition set_sessions (s : gmap string Session.t) (st : server) : server :=
  {| srv_chat_limiter := srv_chat_limiter st; srv_sessions := s;
     srv_llm_service := srv_llm_service st; srv_heap := srv_heap st |}.
Definition set_heap (h : heap) (st : server) : server :=
  {| srv_chat_limiter := srv_chat_limiter st; srv_sessions := srv_sessions st;
     srv_llm_service := srv_llm_service st; srv_heap := h |}.

(** The server after start-up. *)
Definition initial_server (llm : LLMService.t) : server :=
  {| srv_chat_limiter := chat_limiter; srv_sessions := ∅;
     srv_llm_service := llm; srv_heap := initial_heap |}.

(** What one request reads from outside: the two readings of the clock
    (in [is_allowed] and in [get_or_create_session]) and the token drawn
    for a new session. *)
Record environment : Type := {
  now_limiter : Z;
  now_session : Z;
  uuid4 : string
}.

(** The fields of the request's profile that are set overwrite those of
    the session's. *)
Definition apply_overrides (req stored : UserProfile.t) : UserProfile.t :=
  let stored :=
    if bool_decide (UserProfile.age req <> None)
    then UserProfile.set_age (UserProfile.age req) stored else stored in
  let stored :=
    if bool_decide (UserProfile.income req <> None)
    then UserProfile.set_income (UserProfile.income req) stored else stored in
  let stored :=
    if bool_decide (UserProfile.state req <> None)
    then UserProfile.set_state (UserProfile.state req) stored else stored in
  if bool_decide (UserProfile.category req <> None)
  then UserProfile.set_category (UserProfile.category req) stored else stored.

Section Chat.

(** The text-generation collaborator and the response sanitizer. The
    sanitizer only rewrites the reply text. *)
Variable gemini_chat_invoke : list LLMService.chat_message -> result string.
Variable sanitize_response : string -> string.

(** The handler of [POST /chat]: the state it leaves behind and its
    outcome. The state is the one reached when the handler returns or
    raises. *)
Definition chat (st : server) (request : ChatRequest) (env : environment)
  : server * result ChatResponse :=
  (* Rate limiting by session ID *)
  let '(limiter, (allowed, remaining)) :=
    RateLimiter.is_allowed (srv_chat_limiter st) (now_limiter env)
                           (session_id request) in
  let st := set_chat_limiter limiter st in
  if negb allowed then
    (st, Raise (HTTPException 429
                  "Too many requests. Please wait before sending another message."))
  else
  (* Get or create session *)
  match get_or_create_session (srv_sessions st) (session_id request)
                              (now_session env) (uuid4 env) with
  | Raise e => (st, Raise e)
  | Ok (sessions, session) =>
      let sid := session_id request in
      (* Update profile from request *)
      let session :=
        Session.set_user_profile
          (apply_overrides (user_profile request) (Session.user_profile session))
          session in
      let st := set_sessions (<[sid := session]> sessions) st in
      (* Extract profile info from message *)
      match extract_profile_info (message request) (Session.user_profile session) with
      | Raise e => (st, Raise e)
      | Ok profile =>
          let session := Session.set_user_profile profile session in
          (* Add message to conversation history *)
          let session := Session.append_history ("user", message request) session in
          (* Check if profile is complete *)
          match get_next_profile_question profile with
          | Some question =>
              let session := Session.append_history ("assistant", question) session in
              (set_sessions (<[sid := session]> sessions) st,
               Ok {| response := question; schemes := [];
                     next_question := Some question |})
          | None =>
              (* Profile is complete - get eligible schemes *)
              match get_eligible_schemes (srv_heap st) (UserProfile.to_dict profile) with
              | (h, Raise e) =>
                  (set_heap h (set_sessions (<[sid := session]> sessions) st), Raise e)
              | (h, Ok refs) =>
                  let eligible_schemes := deref h refs in
                  (* Generate response *)
                  let response_text :=
                    LLMService.generate_response gemini_chat_invoke
                      (srv_llm_service st) (message request) eligible_schemes
                      (UserProfile.to_dict profile)
                      (Session.conversation_history session) in
                  let response_text := sanitize_response response_text in
                  let session :=
                    Session.append_history ("assistant", response_text) session in
                  (set_heap h (set_sessions (<[sid := session]> sessions) st),
                   Ok {| response := response_text; schemes := eligible_schemes;
                         next_question := None |})
              end
          end
      end
  end.

End Chat.

(** * Vocabulary of the specification *)

(** ** Eligibility *)

(** A fully-populated profile. *)
Definition full_profile (age income : Z) (state category : string) : UserProfile.t :=
  UserProfile.Build (Some age) (Some income) (Some state) (Some category).

(** The four criteria, as conditions under which each one fails. *)
Definition age_fails (age : Z) (sch : scheme.t) : Prop :=
  age < scheme.age_min sch \/ age > scheme.age_max sch.
Definition income_fails (income : Z) (sch : scheme.t) : Prop :=
  income > scheme.income_max sch.
Definition category_fails (category : string) (sch : scheme.t) : Prop :=
  scheme.category sch <> "ALL" /\ scheme.category sch <> category.
Definition state_fails (state : string) (sch : scheme.t) : Prop :=
  scheme.state sch <> "ALL" /\ scheme.state sch <> state.

(** The rejection message of each criterion. *)
Definition age_rejection (sch : scheme.t) : string :=
  "Age must be between " +:+ PyStr.str (scheme.age_min sch)
  +:+ "-" +:+ PyStr.str (scheme.age_max sch).
Definition income_rejection (sch : scheme.t) : string :=
  "Income must be below ₹" +:+ PyStr.format_comma (scheme.income_max sch).
Definition category_rejection (sch : scheme.t) : string :=
  "This scheme is for " +:+ scheme.category sch +:+ " category only".
Definition state_rejection (sch : scheme.t) : string :=
  "This scheme is only for " +:+ scheme.state sch.

(** The affirming clause of each criterion. *)
Definition age_clause (age : Z) (sch : scheme.t) : string :=
  "Age " +:+ PyStr.str age +:+ " is within " +:+ PyStr.str (scheme.age_min sch)
  +:+ "-" +:+ PyStr.str (scheme.age_max sch) +:+ " range".
Definition income_clause (income : Z) : string :=
  "Income ₹" +:+ PyStr.format_comma income +:+ " is below limit".
Definition category_clause (category : string) : string :=
  category +:+ " category matches".
Definition state_clause (state : string) : string :=
  state +:+ " state matches".

(** The clauses of an eligible profile, in the order age, income,
    category, state; the last two only for a restricted scheme. *)
Definition affirming_clauses (age income : Z) (state category : string)
    (sch : scheme.t) : list string :=
  ([age_clause age sch; income_clause income]
   ++ (if decide (scheme.category sch = "ALL") then [] else [category_clause category])
   ++ (if decide (scheme.state sch = "ALL") then [] else [state_clause state]))%list.

Definition rejected_on_age (p : UserProfile.t) (sch : scheme.t) : Prop :=
  is_eligible p sch = Ok (false, age_rejection sch).
Definition rejected_on_income (p : UserProfile.t) (sch : scheme.t) : Prop :=
  is_eligible p sch = Ok (false, income_rejection sch).

(** The invariant of a scheme record. *)
Definition scheme_invariant (sch : scheme.t) : Prop :=
  scheme.age_min sch <= scheme.age_max sch /\ 0 <= scheme.income_max sch.


(** ** Rate limiting *)

(** The times recorded for a key; a key never seen has none. *)
Definition timestamps (rl : RateLimiter.t) (key : string) : list Z :=
  default [] (RateLimiter.requests rl !! key).

(** The recorded times that are strictly later than [now - window_seconds]. *)
Definition surviving (rl : RateLimiter.t) (now : Z) (key : string) : list Z :=
  filter (fun t => now - RateLimiter.timedelta_seconds (RateLimiter.window_seconds rl) < t)
         (timestamps rl key).

Definition remaining_quota (rl : RateLimiter.t) (now : Z) (key : string) : Z :=
  RateLimiter.max_requests rl - Z.of_nat (length (surviving rl now key)).

(** Successive calls of [is_allowed] for one key, at the given times. *)
Fixpoint calls (rl : RateLimiter.t) (key : string) (times : list Z)
  : RateLimiter.t * list (bool * Z) :=
  match times with
  | [] => (rl, [])
  | now :: rest =>
      let '(rl1, r) := RateLimiter.is_allowed rl now key in
      let '(rl2, rs) := calls rl1 key rest in
      (rl2, r :: rs)
  end.

(** All the times lie in one window: any two are less than the window
    apart. *)
Definition within_window (window_seconds : Z) (times : list Z) : Prop :=
  forall t t', t ∈ times -> t' ∈ times ->
    t' - RateLimiter.timedelta_seconds window_seconds < t.

(** [n] admissions in a row, from a quota of [quota]. *)
Definition admissions (quota : Z) (n : nat) : list (bool * Z) :=
  map (fun i => (true, quota - Z.of_nat i)) (seq 0 n).

(** The limiters the program can reach from [RateLimiter(max, window)]. *)
Inductive reachable (max window : Z) : RateLimiter.t -> Prop :=
  | reachable_init : reachable max window (RateLimiter.init max window)
  | reachable_is_allowed rl now key :
      reachable max window rl ->
      reachable max window (RateLimiter.is_allowed rl now key).1
  | reachable_cleanup rl now :
      reachable max window rl ->
      reachable max window (RateLimiter.cleanup rl now).

(** Every list of a reachable limiter is within the quota. *)
Definition within_quota (max : Z) (rl : RateLimiter.t) : Prop :=
  forall key l, RateLimiter.requests rl !! key = Some l ->
    Z.of_nat (length l) <= Z.max 0 max.

(** ** The eligible schemes *)

(** The verdict and the explanation of the evaluator. *)
Definition eligible (p : UserProfile.t) (sch : scheme.t) : bool :=
  match is_eligible p sch with
  | Ok (true, _) => true
  | _ => false
  end.

Definition reason_of (p : UserProfile.t) (sch : scheme.t) : string :=
  match is_eligible p sch with
  | Ok (_, reason) => reason
  | Raise _ => ""
  end.

(** A catalog record with the explanation attached. *)
Definition with_reason (p : UserProfile.t) (sch : scheme.t) : scheme.t :=
  scheme.set_eligibilityReason (reason_of p sch) sch.

(** A returned record without its [eligibilityReason] key. *)
Definition without_reason (d : scheme.t) : scheme.t :=
  scheme.Build (scheme.id d) (scheme.name d) (scheme.state d) (scheme.category d)
               (scheme.income_max d) (scheme.age_min d) (scheme.age_max d)
               (scheme.benefits d) (scheme.documents d) (scheme.apply_link d) None.

(** The heap holds the catalog where the module put it. *)
Definition holds_catalog (h : heap) : Prop := SCHEMES_data `prefix_of` h.

(** ** Profile extraction *)





(** A message that is one number of 310 digits: 1 followed by 309 zeros. *)
Definition huge_number : string :=
  String "1" (string_of_list_ascii (repeat "0"%char 309)).

(** ** Session identifiers *)



(** A well-formed identifier followed by a line feed: 37 characters. *)
Definition newline_session_id : string :=
  "123e4567-e89b-12d3-a456-426614174000" +:+ LLMService.nl.

(** *** The income as the specification words it *)


(** The upper-case form of a letter [a]-[z]; any other character is left
    as it is. *)
Definition upper_code (c : ascii) : nat :=
  if (97 <=? PyStr.code c)%nat && (PyStr.code c <=? 122)%nat
  then (PyStr.code c - 32)%nat
  else PyStr.code c.

(** Two characters that are equal when the case of letters is ignored. *)
Definition same_letter (a b : ascii) : bool := (upper_code a =? upper_code b)%nat.

(** [word] is written at the start of [text], in whatever case. *)
Fixpoint starts_with_word (word text : string) : bool :=
  match word, text with
  | EmptyString, _ => true
  | String a word', String b text' => same_letter a b && starts_with_word word' text'
  | String _ _, EmptyString => false
  end.

(** [word] is written somewhere in [text], in whatever case. *)
Fixpoint mentions (word text : string) : bool :=
  starts_with_word word text
  || match text with
     | EmptyString => false
     | String _ rest => mentions word rest
     end.

(** The factor the specification reads off the whole message: 100,000 when
    it contains "lakh" or "l", else 1,000 when it contains "k" or
    "thousand", else 1. *)
Definition income_unit (message : string) : Z :=
  if mentions "lakh" message || mentions "l" message then 100000
  else if mentions "k" message || mentions "thousand" message then 1000
  else 1.

(** The value of a decimal numeral (digits, commas between groups of
    digits, at most one point) as a fraction: the numerator and the
    denominator, a power of ten. [fractional] tells whether the point has
    been passed. *)
Fixpoint decimal_fraction (fractional : bool) (num den : Z) (numeral : string)
  : Z * Z :=
  match numeral with
  | EmptyString => (num, den)
  | String c rest =>
      if (48 <=? PyStr.code c)%nat && (PyStr.code c <=? 57)%nat then
        decimal_fraction fractional (10 * num + Z.of_nat (PyStr.code c - 48))
                         (if fractional then 10 * den else den) rest
      else if (PyStr.code c =? 46)%nat then decimal_fraction true num den rest
      else decimal_fraction fractional num den rest
  end.

(** The income the specification gives for the numeral found in the
    message: its value times the unit, truncated to an integer. *)
Definition exact_income (message numeral : string) : Z :=
  let '(num, den) := decimal_fraction false 0 1 numeral in
  (num * income_unit message) ÷ den.




(** * The rest of the backend *)

(** ** Backend/routes/chat.py: the response sanitizer *)

(** Two characters equal under [re.IGNORECASE]. *)
Definition eqb_ci (a b : ascii) : bool :=
  Ascii.eqb (PyStr.lower_char a) (PyStr.lower_char b).

(** The literal [pat] at the start of [s], case-insensitively: what
    follows it. *)
Fixpoint match_literal_ci (pat s : string) : option string :=
  match pat with
  | EmptyString => Some s
  | String p pat' =>
      match s with
      | String c s' => if eqb_ci p c then match_literal_ci pat' s' else None
      | EmptyString => None
      end
  end.

(** The offset of the first case-insensitive occurrence of [pat] in [s]. *)
Fixpoint find_literal_ci (pat s : string) : option nat :=
  match match_literal_ci pat s with
  | Some _ => Some 0%nat
  | None =>
      match s with
      | EmptyString => None
      | String _ s' => S <$> find_literal_ci pat s'
      end
  end.

(** The offset of the first [>] in [s]. *)
Fixpoint find_gt (s : string) : option nat :=
  match s with
  | EmptyString => None
  | String c s' => if (PyStr.code c =? 62)%nat then Some 0%nat else S <$> find_gt s'
  end.

(** [s[n:]] *)
Fixpoint string_drop (n : nat) (s : string) : string :=
  match n, s with
  | S n', String _ s' => string_drop n' s'
  | _, _ => s
  end.

(** The length of the match of [open[^>]*>.*?close] at the start of [s],
    with [re.IGNORECASE | re.DOTALL]: after [open], the class takes
    everything up to the first [>], and the lazy [.*?] stops at the first
    [close] after it. *)
Definition match_element (open close s : string) : option nat :=
  rest ← match_literal_ci open s;
  a ← find_gt rest;
  b ← find_literal_ci close (string_drop (a + 1) rest);
  Some (String.length open + a + 1 + b + String.length close)%nat.

(** [\b] between two neighbouring characters, [None] being an end of the
    text. *)
Definition word_char (c : option ascii) : bool :=
  match c with
  | Some c => PyStr.is_word c
  | None => false
  end.

Definition at_boundary (before after : option ascii) : bool :=
  xorb (word_char before) (word_char after).

Fixpoint last_char (prev : option ascii) (s : string) : option ascii :=
  match s with
  | EmptyString => prev
  | String c s' => last_char (Some c) s'
  end.

(** [s[:n]] *)
Fixpoint string_take (n : nat) (s : string) : string :=
  match n, s with
  | S n', String c s' => String c (string_take n' s')
  | _, _ => EmptyString
  end.

(** The length of the match of [\btag\b] at the start of [s], with
    [re.IGNORECASE]; [prev] is the character before [s]. *)
Definition match_token (tag : string) (prev : option ascii) (s : string) : option nat :=
  if at_boundary prev (first_char s) then
    rest ← match_literal_ci tag s;
    if at_boundary (last_char prev (string_take (String.length tag) s)) (first_char rest)
    then Some (String.length tag)
    else None
  else None.

(** [re.sub(pattern, '', s)] for a pattern that matches no empty string:
    the text is scanned from the left, a match found at a position is
    left out and the scan goes on after it. [match_at prev s] is the length
    of the match at the start of [s]; [skip] counts the characters of the
    current match still to leave out. *)
Fixpoint re_sub_delete (match_at : option ascii -> string -> option nat)
    (skip : nat) (prev : option ascii) (s : string) : string :=
  match s with
  | EmptyString => EmptyString
  | String c rest =>
      match skip with
      | S k => re_sub_delete match_at k (Some c) rest
      | O =>
          match match_at prev s with
          | Some (S k) => re_sub_delete match_at k (Some c) rest
          | _ => String c (re_sub_delete match_at 0 (Some c) rest)
          end
      end
  end.

Definition dangerous_tags : list string :=
  ["onclick"; "onerror"; "onload"; "javascript:"].

Definition sanitize_response (text : string) : string :=
  (* Remove script tags and their content *)
  let text := re_sub_delete (fun _ => match_element "<script" "</script>") 0 None text in
  (* Remove iframe tags *)
  let text := re_sub_delete (fun _ => match_element "<iframe" "</iframe>") 0 None text in
  (* Remove other potentially dangerous HTML tags *)
  let text :=
    fold_left (fun text tag => re_sub_delete (match_token tag) 0 None text)
              dangerous_tags text in
  PyStr.strip text.

(** ** Backend/models/schemas.py and Backend/routes/eligibility.py *)

Module EligibilityRequest.

Record t : Type := Build {
  age : Z;
  income : Z;
  state : string;
  category : string
}.

(** The constraints of the fields: [age] has [ge=1, le=120], [income] has
    [ge=0]. A request reaches the handler only when they hold. *)
Definition valid (self : t) : bool :=
  (1 <=? age self) && (age self <=? 120) && (0 <=? income self).

Definition to_dict (self : t) : UserProfile.t :=
  UserProfile.Build (Some (age self)) (Some (income self))
                    (Some (state self)) (Some (category self)).

End EligibilityRequest.



(** ** Backend/models/schemas.py, Backend/services/sms_service.py and
    Backend/routes/sms.py *)






Module SMSService.

Record t : Type := Build { available : bool }.




Section WithTwilio.

(** [twilio_client.messages.create(body, from_, to)]: the notification
    collaborator, which returns the identifier of the message or raises. *)
Variable twilio_create : string -> string -> result string.





End WithTwilio.

End SMSService.

(** ** Vocabulary of the further properties *)

(** A session not accessed for more than the timeout, at time [now]. *)
Definition expired (now : Z) (s : Session.t) : Prop :=
  timedelta_minutes SESSION_TIMEOUT_MINUTES < now - Session.last_accessed s.

#[export] Instance expired_dec (now : Z) (s : Session.t) : Decision (expired now s) :=
  decide (timedelta_minutes SESSION_TIMEOUT_MINUTES < now - Session.last_accessed s).








(** *** Sample requests

    The first request of a new conversation with the reply that the
    template gives it, and a server that holds the session of an earlier
    conversation, addressed by another client and by its own. *)









(** * Properties *)

(** ** The eligibility evaluator *)

Section Eligibility.

Variables (age income : Z) (state category : string) (sch : scheme.t).

Let p := full_profile age income state category.

Lemma is_eligible_age_fails :
  age_fails age sch -> is_eligible p sch = Ok (false, age_rejection sch).
Proof.
  intros Hage. unfold is_eligible, p, full_profile; simpl.
  replace ((age <? scheme.age_min sch) || (age >? scheme.age_max sch)) with true; [done|].
  symmetry. apply orb_true_iff. destruct Hage; [left|right]; lia.
Qed.

Lemma is_eligible_age_passes :
  ~ age_fails age sch ->
  (age <? scheme.age_min sch) || (age >? scheme.age_max sch) = false.
Proof.
  intros Hage. apply orb_false_iff. unfold age_fails in Hage. lia.
Qed.

Lemma is_eligible_income_fails :
  ~ age_fails age sch -> income_fails income sch ->
  is_eligible p sch = Ok (false, income_rejection sch).
Proof.
  intros Hage Hinc. unfold is_eligible, p, full_profile; simpl.
  rewrite (is_eligible_age_passes Hage).
  unfold income_fails in Hinc.
  replace (income >? scheme.income_max sch) with true by lia. done.
Qed.

Lemma is_eligible_category_fails :
  ~ age_fails age sch -> ~ income_fails income sch -> category_fails category sch ->
  is_eligible p sch = Ok (false, category_rejection sch).
Proof.
  intros Hage Hinc [Hall Hcat]. unfold is_eligible, p, full_profile; simpl.
  rewrite (is_eligible_age_passes Hage).
  unfold income_fails in Hinc.
  replace (income >? scheme.income_max sch) with false by lia.
  rewrite (bool_decide_eq_true_2 _ Hall).
  rewrite bool_decide_eq_true_2 by congruence. done.
Qed.

Lemma category_check_passes :
  ~ category_fails category sch ->
  bool_decide (scheme.category sch <> "ALL")
  && bool_decide (Some (scheme.category sch) <> Some category) = false.
Proof.
  intros Hcat. apply andb_false_iff.
  destruct (decide (scheme.category sch = "ALL")) as [E|E].
  - left. apply bool_decide_eq_false_2. auto.
  - right. apply bool_decide_eq_false_2. intros Hne. apply Hcat.
    split; [done|]. congruence.
Qed.

Lemma state_check_passes :
  ~ state_fails state sch ->
  bool_decide (scheme.state sch <> "ALL")
  && bool_decide (Some (scheme.state sch) <> Some state) = false.
Proof.
  intros Hst. apply andb_false_iff.
  destruct (decide (scheme.state sch = "ALL")) as [E|E].
  - left. apply bool_decide_eq_false_2. auto.
  - right. apply bool_decide_eq_false_2. intros Hne. apply Hst.
    split; [done|]. congruence.
Qed.

Lemma is_eligible_state_fails :
  ~ age_fails age sch -> ~ income_fails income sch ->
  ~ category_fails category sch -> state_fails state sch ->
  is_eligible p sch = Ok (false, state_rejection sch).
Proof.
  intros Hage Hinc Hcat [Hall Hst]. unfold is_eligible, p, full_profile; simpl.
  rewrite (is_eligible_age_passes Hage).
  unfold income_fails in Hinc.
  replace (income >? scheme.income_max sch) with false by lia.
  rewrite (category_check_passes Hcat).
  rewrite (bool_decide_eq_true_2 _ Hall).
  rewrite bool_decide_eq_true_2 by congruence. done.
Qed.

Lemma is_eligible_all_pass :
  ~ age_fails age sch -> ~ income_fails income sch ->
  ~ category_fails category sch -> ~ state_fails state sch ->
  is_eligible p sch
  = Ok (true, PyStr.join " • " (affirming_clauses age income state category sch)).
Proof.
  intros Hage Hinc Hcat Hst. unfold is_eligible, p, full_profile; simpl.
  rewrite (is_eligible_age_passes Hage).
  unfold income_fails in Hinc.
  replace (income >? scheme.income_max sch) with false by lia.
  rewrite (category_check_passes Hcat), (state_check_passes Hst).
  unfold affirming_clauses.
  destruct (decide (scheme.category sch = "ALL")) as [Ec|Ec];
    destruct (decide (scheme.state sch = "ALL")) as [Es|Es];
    repeat first [ rewrite bool_decide_eq_true_2 by done
                 | rewrite bool_decide_eq_false_2 by auto ];
    reflexivity.
Qed.

End Eligibility.

Lemma age_fails_dec age sch : {age_fails age sch} + {~ age_fails age sch}.
Proof.
  unfold age_fails.
  destruct (Z_lt_dec age (scheme.age_min sch)); [left; lia|].
  destruct (Z_gt_dec age (scheme.age_max sch)); [left; lia|right; lia].
Qed.

Lemma income_fails_dec income sch : {income_fails income sch} + {~ income_fails income sch}.
Proof. unfold income_fails. apply Z_gt_dec. Qed.

Lemma category_fails_dec category sch :
  {category_fails category sch} + {~ category_fails category sch}.
Proof.
  unfold category_fails.
  destruct (decide (scheme.category sch = "ALL")); [right; tauto|].
  destruct (decide (scheme.category sch = category)); [right; tauto|left; tauto].
Qed.

Lemma state_fails_dec state sch : {state_fails state sch} + {~ state_fails state sch}.
Proof.
  unfold state_fails.
  destruct (decide (scheme.state sch = "ALL")); [right; tauto|].
  destruct (decide (scheme.state sch = state)); [right; tauto|left; tauto].
Qed.

(** The outcome of the evaluator on a fully-populated profile is decided
    by the first criterion that fails. *)
Lemma is_eligible_cases age income state category sch :
  let r := is_eligible (full_profile age income state category) sch in
  (age_fails age sch /\ r = Ok (false, age_rejection sch))
  \/ (~ age_fails age sch /\ income_fails income sch
      /\ r = Ok (false, income_rejection sch))
  \/ (~ age_fails age sch /\ ~ income_fails income sch
      /\ category_fails category sch /\ r = Ok (false, category_rejection sch))
  \/ (~ age_fails age sch /\ ~ income_fails income sch
      /\ ~ category_fails category sch /\ state_fails state sch
      /\ r = Ok (false, state_rejection sch))
  \/ (~ age_fails age sch /\ ~ income_fails income sch
      /\ ~ category_fails category sch /\ ~ state_fails state sch
      /\ r = Ok (true, PyStr.join " • "
                         (affirming_clauses age income state category sch))).
Proof.
  intros r. unfold r.
  destruct (age_fails_dec age sch) as [Ha|Ha].
  { left. split; [done|]. by apply is_eligible_age_fails. }
  destruct (income_fails_dec income sch) as [Hi|Hi].
  { right; left. repeat split; try done. by apply is_eligible_income_fails. }
  destruct (category_fails_dec category sch) as [Hc|Hc].
  { right; right; left. repeat split; try done.
    all: try apply Hc. by apply is_eligible_category_fails. }
  destruct (state_fails_dec state sch) as [Hs|Hs].
  { right; right; right; left. repeat split; try done.
    all: try apply Hs. by apply is_eligible_state_fails. }
  right; right; right; right. repeat split; try done.
  by apply is_eligible_all_pass.
Qed.

(** Case analysis on the outcome of the evaluator, the result rewritten
    in the goal. *)
Ltac eligibility_cases age income state category sch :=
  destruct (is_eligible_cases age income state category sch)
    as [[? ->]|[(?&?&->)|[(?&?&?&->)|[(?&?&?&?&->)|(?&?&?&?&->)]]]].

(** C1: on a fully-populated profile [is_eligible] tests the criteria in
    the order age, income, category, state; the first criterion that fails
    decides the outcome, which is [false] with that criterion's rejection
    message; when no criterion fails the outcome is [true] with the
    affirming clauses joined by " • " in the order age, income, category,
    state, the category and state clauses being left out when the scheme's
    field is "ALL". *)
Theorem is_eligible_ordered_short_circuit
    (age income : Z) (state category : string) (sch : scheme.t) :
  let p := full_profile age income state category in
  (age_fails age sch -> is_eligible p sch = Ok (false, age_rejection sch))
  /\ (~ age_fails age sch -> income_fails income sch ->
      is_eligible p sch = Ok (false, income_rejection sch))
  /\ (~ age_fails age sch -> ~ income_fails income sch ->
      category_fails category sch ->
      is_eligible p sch = Ok (false, category_rejection sch))
  /\ (~ age_fails age sch -> ~ income_fails income sch ->
      ~ category_fails category sch -> state_fails state sch ->
      is_eligible p sch = Ok (false, state_rejection sch))
  /\ (~ age_fails age sch -> ~ income_fails income sch ->
      ~ category_fails category sch -> ~ state_fails state sch ->
      is_eligible p sch
      = Ok (true, PyStr.join " • "
                    (([age_clause age sch; income_clause income]
                      ++ (if decide (scheme.category sch = "ALL") then []
                          else [category_clause category])
                      ++ (if decide (scheme.state sch = "ALL") then []
                          else [state_clause state]))%list))).
Proof.
  intros p. unfold p. repeat split.
  - apply is_eligible_age_fails.
  - apply is_eligible_income_fails.
  - apply is_eligible_category_fails.
  - apply is_eligible_state_fails.
  - apply is_eligible_all_pass.
Qed.

(** The rejection surfaced when several criteria fail is that of the
    earliest one: a profile too old, too rich and of the wrong category for
    the second scheme of the catalog is rejected on age. *)
Lemma is_eligible_ordered_short_circuit_witness :
  from_option
    (fun sch => is_eligible (full_profile 40 900000 "Goa" "General") sch
                = Ok (false, "Age must be between 15-25"))
    False (SCHEMES_data !! 1%nat).
Proof.
  simpl.
  apply (is_eligible_ordered_short_circuit 40 900000 "Goa" "General").
  unfold age_fails; simpl; lia.
Defined.

Lemma SCHEMES_data_invariant : Forall scheme_invariant SCHEMES_data.
Proof. repeat constructor; simpl; lia. Qed.

(** C2: the bounds are inclusive. For a scheme that satisfies the record
    invariant [age_min <= age_max], a profile whose age is [age_min] or
    [age_max] is not rejected on age, a profile whose income is
    [income_max] is not rejected on income, and a profile whose income is
    [income_max + 1] is ineligible, with the income rejection whenever its
    age is in range; with every other criterion met, the boundary profiles
    are eligible. *)
Theorem eligibility_bounds_inclusive
    (sch : scheme.t) (age income : Z) (state category : string)
    (Hinv : scheme_invariant sch) :
  ~ rejected_on_age (full_profile (scheme.age_min sch) income state category) sch
  /\ ~ rejected_on_age (full_profile (scheme.age_max sch) income state category) sch
  /\ ~ rejected_on_income
         (full_profile age (scheme.income_max sch) state category) sch
  /\ (exists msg,
        is_eligible (full_profile age (scheme.income_max sch + 1) state category) sch
        = Ok (false, msg))
  /\ (~ age_fails age sch ->
      rejected_on_income
        (full_profile age (scheme.income_max sch + 1) state category) sch)
  /\ (~ category_fails category sch -> ~ state_fails state sch ->
      (exists r, is_eligible (full_profile (scheme.age_min sch)
                                (scheme.income_max sch) state category) sch
                 = Ok (true, r))
      /\ (exists r, is_eligible (full_profile (scheme.age_max sch)
                                   (scheme.income_max sch) state category) sch
                    = Ok (true, r))).
Proof.
  destruct Hinv as [Hage _].
  assert (Hmin : ~ age_fails (scheme.age_min sch) sch) by (unfold age_fails; lia).
  assert (Hmax : ~ age_fails (scheme.age_max sch) sch) by (unfold age_fails; lia).
  assert (Hinc : ~ income_fails (scheme.income_max sch) sch)
    by (unfold income_fails; lia).
  assert (Hinc1 : income_fails (scheme.income_max sch + 1) sch)
    by (unfold income_fails; lia).
  unfold rejected_on_age, rejected_on_income.
  split; [|split; [|split; [|split; [|split]]]].
  - eligibility_cases (scheme.age_min sch) income state category sch;
      [done|discriminate..].
  - eligibility_cases (scheme.age_max sch) income state category sch;
      [done|discriminate..].
  - eligibility_cases age (scheme.income_max sch) state category sch;
      [discriminate|done|discriminate..].
  - eligibility_cases age (scheme.income_max sch + 1) state category sch;
      eauto; done.
  - intros Ha. by apply is_eligible_income_fails.
  - intros Hc Hs. split; eexists; by apply is_eligible_all_pass.
Qed.

Lemma eligibility_bounds_inclusive_witness :
  from_option
    (fun sch =>
       scheme_invariant sch
       /\ is_eligible (full_profile 17 250000 "Goa" "General") sch
          = Ok (true, "Age 17 is within 17-25 range • Income ₹250,000 is below limit")
       /\ is_eligible (full_profile 25 250000 "Goa" "General") sch
          = Ok (true, "Age 25 is within 17-25 range • Income ₹250,000 is below limit")
       /\ is_eligible (full_profile 20 250001 "Goa" "General") sch
          = Ok (false, "Income must be below ₹250,000"))
    False (SCHEMES_data !! 0%nat).
Proof.
  simpl.
  assert (Hinv : scheme_invariant
                   (scheme.Build "scheme_1" "National Scholarship for Higher Education"
                      "ALL" "ALL" 250000 17 25
                      "Full tuition fee reimbursement up to ₹50,000 per year plus ₹10,000 annual book allowance for undergraduate students."
                      ["Aadhaar Card"; "Income Certificate"; "Previous Year Marksheet";
                       "Bank Passbook"; "College Admission Letter"]
                      "https://scholarships.gov.in" None))
    by (unfold scheme_invariant; simpl; lia).
  split; [exact Hinv|].
  pose proof (eligibility_bounds_inclusive _ 20 0 "Goa" "General" Hinv)
    as (_ & _ & _ & _ & Hrej & _).
  split; [reflexivity|split; [reflexivity|]].
  apply Hrej. unfold age_fails; simpl; lia.
Defined.

(** ** The rate limiter *)

Lemma timestamps_lookup_total (rl : RateLimiter.t) key :
  RateLimiter.requests rl !!! key = timestamps rl key.
Proof. unfold timestamps. by rewrite lookup_total_alt. Qed.

(** [is_allowed] replaces the list of the key by the surviving times,
    followed by [now] when the request is admitted, and touches nothing
    else. *)
Lemma is_allowed_unfold (rl : RateLimiter.t) now key :
  RateLimiter.is_allowed rl now key
  = if 0 <? remaining_quota rl now key then
      (RateLimiter.set_requests rl
         (<[key := (surviving rl now key ++ [now])%list]> (RateLimiter.requests rl)),
       (true, remaining_quota rl now key))
    else
      (RateLimiter.set_requests rl
         (<[key := surviving rl now key]> (RateLimiter.requests rl)),
       (false, 0)).
Proof.
  unfold RateLimiter.is_allowed, remaining_quota, surviving, RateLimiter.prune.
  assert (Hts :
    (match RateLimiter.requests rl !! key with
     | Some _ => RateLimiter.requests rl
     | None => <[key := []]> (RateLimiter.requests rl)
     end) !!! key = timestamps rl key).
  { unfold timestamps. destruct (RateLimiter.requests rl !! key) as [l|] eqn:E.
    - by rewrite lookup_total_alt, E.
    - by rewrite lookup_total_insert_eq. }
  rewrite Hts. rewrite lookup_total_insert_eq.
  rewrite Z.gtb_ltb.
  assert (Hins : forall l : list Z,
    <[key := l]> (match RateLimiter.requests rl !! key with
                  | Some _ => RateLimiter.requests rl
                  | None => <[key := []]> (RateLimiter.requests rl)
                  end) = <[key := l]> (RateLimiter.requests rl)).
  { intros l. destruct (RateLimiter.requests rl !! key); [done|].
    by rewrite insert_insert_eq. }
  rewrite insert_insert_eq. rewrite !Hins. reflexivity.
Qed.

Section FilterFacts.

Context {A : Type} (P : A -> Prop) `{!forall x, Decision (P x)}.

Lemma filter_all (l : list A) : Forall P l -> filter P l = l.
Proof.
  induction 1 as [|x l Hx Hl IH]; [done|].
  rewrite filter_cons_True by done. by rewrite IH.
Qed.

Lemma filter_length_eq (l : list A) :
  length (filter P l) = length l -> filter P l = l.
Proof.
  induction l as [|x l IH]; [done|].
  destruct (decide (P x)) as [Hx|Hx].
  - rewrite filter_cons_True by done. simpl. intros E. f_equal. apply IH. lia.
  - rewrite filter_cons_False by done. simpl. intros E.
    pose proof (length_filter P l). lia.
Qed.


End FilterFacts.

Lemma timestamps_insert (rl : RateLimiter.t) key l :
  timestamps (RateLimiter.set_requests rl (<[key := l]> (RateLimiter.requests rl))) key = l.
Proof. unfold timestamps; simpl. by rewrite lookup_insert_eq. Qed.

Lemma timestamps_insert_ne (rl : RateLimiter.t) key k l :
  k <> key ->
  timestamps (RateLimiter.set_requests rl (<[key := l]> (RateLimiter.requests rl))) k
  = timestamps rl k.
Proof. intros Hne. unfold timestamps; simpl. by rewrite lookup_insert_ne. Qed.

Lemma is_allowed_max_requests rl now key :
  RateLimiter.max_requests (RateLimiter.is_allowed rl now key).1
  = RateLimiter.max_requests rl.
Proof. rewrite is_allowed_unfold. by destruct (0 <? _). Qed.

Lemma is_allowed_window_seconds rl now key :
  RateLimiter.window_seconds (RateLimiter.is_allowed rl now key).1
  = RateLimiter.window_seconds rl.
Proof. rewrite is_allowed_unfold. by destruct (0 <? _). Qed.

(** A request is admitted exactly when the quota that remains is positive;
    the times of the key are then the surviving ones and [now]. *)
Lemma is_allowed_admitted rl now key :
  0 < remaining_quota rl now key ->
  (RateLimiter.is_allowed rl now key).2 = (true, remaining_quota rl now key)
  /\ timestamps (RateLimiter.is_allowed rl now key).1 key
     = (surviving rl now key ++ [now])%list.
Proof.
  intros Hrem. rewrite is_allowed_unfold.
  replace (0 <? remaining_quota rl now key) with true by lia.
  simpl. split; [done|]. apply timestamps_insert.
Qed.

Lemma is_allowed_rejected rl now key :
  remaining_quota rl now key <= 0 ->
  (RateLimiter.is_allowed rl now key).2 = (false, 0)
  /\ timestamps (RateLimiter.is_allowed rl now key).1 key = surviving rl now key.
Proof.
  intros Hrem. rewrite is_allowed_unfold.
  replace (0 <? remaining_quota rl now key) with false by lia.
  simpl. split; [done|]. apply timestamps_insert.
Qed.


(** Times that are all in one window with [now] all survive. *)
Lemma surviving_within_window rl now key :
  (forall t, t ∈ timestamps rl key ->
     now - RateLimiter.timedelta_seconds (RateLimiter.window_seconds rl) < t) ->
  surviving rl now key = timestamps rl key.
Proof.
  intros Hall. unfold surviving. apply filter_all.
  apply Forall_forall. intros t Ht. by apply Hall.
Qed.

Lemma admissions_cons quota n :
  admissions quota (S n) = (true, quota) :: admissions (quota - 1) n.
Proof.
  unfold admissions. simpl. f_equal; [f_equal; lia|].
  rewrite <- seq_shift, map_map. apply map_ext. intros i. f_equal. lia.
Qed.

(** While the quota lasts, calls within one window are all admitted and
    all recorded. *)
Lemma calls_admitted (times : list Z) : forall (rl : RateLimiter.t) key,
  within_window (RateLimiter.window_seconds rl) (timestamps rl key ++ times) ->
  Z.of_nat (length (timestamps rl key) + length times) <= RateLimiter.max_requests rl ->
  (calls rl key times).2
  = admissions (RateLimiter.max_requests rl - Z.of_nat (length (timestamps rl key)))
               (length times)
  /\ timestamps (calls rl key times).1 key = (timestamps rl key ++ times)%list
  /\ RateLimiter.max_requests (calls rl key times).1 = RateLimiter.max_requests rl
  /\ RateLimiter.window_seconds (calls rl key times).1 = RateLimiter.window_seconds rl.
Proof.
  induction times as [|now rest IH]; intros rl key Hwin Hlen.
  { simpl. by rewrite app_nil_r. }
  simpl in Hlen.
  assert (Hsurv : surviving rl now key = timestamps rl key).
  { apply surviving_within_window. intros t Ht.
    apply Hwin; apply elem_of_app; [by left|right; apply elem_of_cons; by left]. }
  assert (Hrem : 0 < remaining_quota rl now key).
  { unfold remaining_quota. rewrite Hsurv. lia. }
  destruct (is_allowed_admitted rl now key Hrem) as [Hres Hts].
  pose proof (is_allowed_max_requests rl now key) as Hmax.
  pose proof (is_allowed_window_seconds rl now key) as Hw.
  simpl. destruct (RateLimiter.is_allowed rl now key) as [rl1 r] eqn:E.
  simpl in Hres, Hts, Hmax, Hw. subst r.
  rewrite Hsurv in Hts.
  specialize (IH rl1 key).
  destruct (calls rl1 key rest) as [rl2 rs] eqn:E2. simpl in IH |- *.
  rewrite Hts, Hmax, Hw, <- app_assoc in IH. simpl in IH.
  destruct IH as (IH1 & IH2 & IH3 & IH4); [done|rewrite length_app; simpl; lia|].
  repeat split; try done.
  rewrite admissions_cons. unfold remaining_quota. rewrite Hsurv. f_equal.
  rewrite IH1. f_equal. rewrite length_app. simpl. lia.
Qed.

Lemma reachable_invariant max window rl :
  reachable max window rl ->
  RateLimiter.max_requests rl = max
  /\ RateLimiter.window_seconds rl = window
  /\ within_quota max rl.
Proof.
  induction 1 as [|rl now key Hr (IHm & IHw & IHq)|rl now Hr (IHm & IHw & IHq)].
  - split; [done|split; [done|]]. intros key l. simpl. by rewrite lookup_empty.
  - rewrite is_allowed_max_requests, is_allowed_window_seconds.
    split; [done|split; [done|]].
    assert (Hts : Z.of_nat (length (timestamps rl key)) <= Z.max 0 max).
    { unfold timestamps. destruct (RateLimiter.requests rl !! key) as [l0|] eqn:E.
      - simpl. by eapply IHq.
      - simpl. lia. }
    assert (Hsurv : (length (surviving rl now key) <= length (timestamps rl key))%nat)
      by apply length_filter.
    intros k l. rewrite is_allowed_unfold.
    destruct (0 <? remaining_quota rl now key) eqn:Erem; simpl;
      (destruct (decide (k = key)) as [->|Hne];
       [rewrite lookup_insert_eq; intros [= <-]
       |rewrite lookup_insert_ne by done; apply IHq]).
    + unfold remaining_quota in Erem. rewrite length_app. simpl. lia.
    + lia.
  - split; [done|split; [done|]]. intros k l. unfold RateLimiter.cleanup; simpl.
    intros Hl. apply map_lookup_filter_Some_1_1 in Hl.
    rewrite lookup_fmap in Hl.
    destruct (RateLimiter.requests rl !! k) as [l0|] eqn:E; [|done].
    simpl in Hl. injection Hl as <-.
    pose proof (length_filter
      (fun req_time => now - RateLimiter.timedelta_seconds (RateLimiter.window_seconds rl)
                       < req_time) l0) as Hle.
    specialize (IHq k l0 E). unfold RateLimiter.prune. lia.
Qed.

Lemma set_requests_id (rl : RateLimiter.t) :
  RateLimiter.set_requests rl (RateLimiter.requests rl) = rl.
Proof. by destruct rl. Qed.

(** A rejection that prunes nothing for a known key changes nothing. *)
Lemma is_allowed_rejected_id rl now key :
  remaining_quota rl now key <= 0 ->
  surviving rl now key = timestamps rl key ->
  RateLimiter.requests rl !! key <> None ->
  (RateLimiter.is_allowed rl now key).1 = rl.
Proof.
  intros Hrem Hsurv Hkey. rewrite is_allowed_unfold.
  replace (0 <? remaining_quota rl now key) with false by lia. simpl.
  rewrite Hsurv. unfold timestamps.
  destruct (RateLimiter.requests rl !! key) as [l|] eqn:E; [|done]. simpl.
  rewrite insert_id by done. apply set_requests_id.
Qed.

(** In a reachable limiter a rejected call finds every recorded time of
    the key still in the window: the pruning removes nothing. *)
Lemma rejection_prunes_nothing max window rl now key :
  reachable max window rl ->
  remaining_quota rl now key <= 0 ->
  surviving rl now key = timestamps rl key.
Proof.
  intros Hr Hrem. destruct (reachable_invariant max window rl Hr) as (Hm & _ & Hq).
  apply filter_length_eq.
  assert (Hts : Z.of_nat (length (timestamps rl key)) <= Z.max 0 max).
  { unfold timestamps. destruct (RateLimiter.requests rl !! key) as [l0|] eqn:E.
    - simpl. by eapply Hq.
    - simpl. lia. }
  pose proof (length_filter
    (fun t => now - RateLimiter.timedelta_seconds (RateLimiter.window_seconds rl) < t)
    (timestamps rl key)) as Hle.
  unfold remaining_quota, surviving in Hrem. lia.
Qed.

Lemma rejection_frame max window rl now key :
  reachable max window rl ->
  (RateLimiter.is_allowed rl now key).2.1 = false ->
  (RateLimiter.is_allowed rl now key).2 = (false, 0)
  /\ timestamps (RateLimiter.is_allowed rl now key).1 key = timestamps rl key
  /\ (0 < max -> (RateLimiter.is_allowed rl now key).1 = rl).
Proof.
  intros Hr Hrej.
  assert (Hrem : remaining_quota rl now key <= 0).
  { rewrite is_allowed_unfold in Hrej.
    destruct (0 <? remaining_quota rl now key) eqn:E; [done|lia]. }
  pose proof (rejection_prunes_nothing max window rl now key Hr Hrem) as Hsurv.
  destruct (is_allowed_rejected rl now key Hrem) as [H1 H2].
  split; [done|]. split; [by rewrite H2|].
  intros Hpos. apply is_allowed_rejected_id; try done.
  destruct (reachable_invariant max window rl Hr) as (Hm & _ & _).
  intros Hnone. unfold remaining_quota in Hrem. rewrite Hsurv in Hrem.
  unfold timestamps in Hrem. rewrite Hnone in Hrem. simpl in Hrem. lia.
Qed.


(** C3: [is_allowed] is the sliding window. It keeps the recorded times of
    the key that are strictly later than [now - window_seconds], takes
    [remaining] to be [max_requests] minus their number, and when
    [remaining > 0] records [now] and returns [(true, remaining)], else
    returns [(false, 0)] and records nothing. For a key with no recorded
    time, [max_requests] calls in one window are all admitted, the next call
    in that window is rejected, and the rejected call leaves the times of
    the key as they were; so does every rejection in a limiter reached from
    a new one. *)
Theorem is_allowed_sliding_window (rl : RateLimiter.t) (key : string) :
  (forall now,
     RateLimiter.is_allowed rl now key
     = if 0 <? remaining_quota rl now key then
         (RateLimiter.set_requests rl
            (<[key := (surviving rl now key ++ [now])%list]> (RateLimiter.requests rl)),
          (true, remaining_quota rl now key))
       else
         (RateLimiter.set_requests rl
            (<[key := surviving rl now key]> (RateLimiter.requests rl)),
          (false, 0)))
  /\ (forall times last,
        timestamps rl key = [] ->
        length times = Z.to_nat (RateLimiter.max_requests rl) ->
        within_window (RateLimiter.window_seconds rl) (times ++ [last]) ->
        let rl1 := (calls rl key times).1 in
        (calls rl key times).2 = admissions (RateLimiter.max_requests rl) (length times)
        /\ (RateLimiter.is_allowed rl1 last key).2 = (false, 0)
        /\ timestamps (RateLimiter.is_allowed rl1 last key).1 key = timestamps rl1 key
        /\ (0 < RateLimiter.max_requests rl ->
            (RateLimiter.is_allowed rl1 last key).1 = rl1))
  /\ (forall max window now,
        reachable max window rl ->
        (RateLimiter.is_allowed rl now key).2.1 = false ->
        (RateLimiter.is_allowed rl now key).2 = (false, 0)
        /\ timestamps (RateLimiter.is_allowed rl now key).1 key = timestamps rl key
        /\ (0 < max -> (RateLimiter.is_allowed rl now key).1 = rl)).
Proof.
  split; [intros now; apply is_allowed_unfold|].
  split; [|intros max window now; apply rejection_frame].
  intros times last Hfresh Hlen Hwin rl1.
  assert (Hcalls :
    (calls rl key times).2 = admissions (RateLimiter.max_requests rl) (length times)
    /\ timestamps rl1 key = times
    /\ RateLimiter.max_requests rl1 = RateLimiter.max_requests rl
    /\ RateLimiter.window_seconds rl1 = RateLimiter.window_seconds rl).
  { destruct (Z_le_dec 0 (RateLimiter.max_requests rl)) as [Hmax|Hmax].
    - destruct (calls_admitted times rl key) as (H1 & H2 & H3 & H4).
      + rewrite Hfresh. simpl. intros t t' Ht Ht'.
        apply Hwin; apply elem_of_app; by left.
      + rewrite Hfresh. simpl. lia.
      + rewrite Hfresh in H1, H2. simpl in H1, H2. rewrite Z.sub_0_r in H1. done.
    - assert (times = []) as -> by (apply length_zero_iff_nil; lia).
      subst rl1. simpl. done. }
  destruct Hcalls as (Hres & Hts & Hmax1 & Hw1).
  assert (Hsurv : surviving rl1 last key = timestamps rl1 key).
  { apply surviving_within_window. rewrite Hts, Hw1. intros t Ht.
    apply Hwin; apply elem_of_app; [by left|right; apply elem_of_cons; by left]. }
  assert (Hrem : remaining_quota rl1 last key <= 0).
  { unfold remaining_quota. rewrite Hsurv, Hts, Hmax1. lia. }
  destruct (is_allowed_rejected rl1 last key Hrem) as [H1 H2].
  split; [done|]. split; [done|]. split; [by rewrite H2|].
  intros Hpos. apply is_allowed_rejected_id; try done.
  intros Hnone. unfold timestamps in Hts. rewrite Hnone in Hts. simpl in Hts.
  subst times. simpl in Hlen. lia.
Qed.

(** ** The eligible schemes and the catalog *)

Lemma is_eligible_full_Ok age income state category sch :
  exists b r, is_eligible (full_profile age income state category) sch = Ok (b, r).
Proof.
  eligibility_cases age income state category sch; eauto.
Qed.

Lemma deref_cons h l refs d :
  h !! l = Some d -> deref h (l :: refs) = d :: deref h refs.
Proof. intros E. unfold deref. simpl. by rewrite E. Qed.

Lemma deref_app_l (h k : heap) refs :
  Forall (fun l => (l < length h)%nat) refs -> deref (h ++ k) refs = deref h refs.
Proof.
  induction 1 as [|l refs Hl _ IH]; [done|].
  unfold deref in *. simpl. rewrite lookup_app_l by done.
  destruct (h !! l); [f_equal|]; exact IH.
Qed.

(** The objects allocated at the end of a heap, read back in order. *)
Lemma deref_new (news : list scheme.t) : forall h : heap,
  deref (h ++ news) (seq (length h) (length news)) = news.
Proof.
  induction news as [|d news IH]; intros h; [done|].
  change (seq (length h) (length (d :: news)))
    with (length h :: seq (S (length h)) (length news)).
  rewrite (deref_cons _ _ _ d) by apply list_lookup_middle, eq_refl.
  f_equal. specialize (IH (h ++ [d])%list).
  rewrite <- app_assoc, length_app in IH. simpl in IH.
  by rewrite Nat.add_1_r in IH.
Qed.

(** Copying the object at [l] and writing to the copy appends the written
    copy to the heap. *)
Lemma copy_then_setitem (h : heap) l d f :
  h !! l = Some d ->
  exists h1, dict_copy h l = Some (h1, length h)
             /\ dict_setitem h1 (length h) f = (h ++ [f d])%list.
Proof.
  intros E. exists (h ++ [d])%list. unfold dict_copy, dict_setitem. rewrite E. simpl.
  split; [done|].
  replace (length h) with (length h + 0)%nat at 1 by lia.
  by rewrite alter_app_r.
Qed.

Lemma get_eligible_schemes_step_full age income state category h acc l sch :
  h !! l = Some sch ->
  let p := full_profile age income state category in
  get_eligible_schemes_step p h acc l
  = if eligible p sch
    then ((h ++ [with_reason p sch])%list, Ok (acc ++ [length h])%list)
    else (h, Ok acc).
Proof.
  intros E p. subst p.
  unfold get_eligible_schemes_step, eligible, with_reason, reason_of.
  rewrite E.
  destruct (is_eligible_full_Ok age income state category sch) as (b & r & Hr).
  rewrite Hr. destruct b; [|done].
  destruct (copy_then_setitem h l sch (scheme.set_eligibilityReason r) E)
    as (h1 & -> & ->). done.
Qed.

(** The loop on a fully-populated profile: the eligible records, with
    their explanations, are appended to the heap in the order of the list
    walked, and the references to them are appended to the result. *)
Lemma get_eligible_schemes_loop_full age income state category (schemes : list loc) :
  forall (h : heap) (acc : list loc),
  Forall (fun l => (l < length h)%nat) schemes ->
  let p := full_profile age income state category in
  let news := map (with_reason p) (filter (fun s => eligible p s = true) (deref h schemes)) in
  get_eligible_schemes_loop p schemes h acc
  = ((h ++ news)%list, Ok (acc ++ seq (length h) (length news))%list).
Proof.
  induction schemes as [|l rest IH]; intros h acc Hvalid p news; subst news p.
  { simpl. by rewrite !app_nil_r. }
  apply Forall_cons in Hvalid as [Hl Hrest].
  destruct (lookup_lt_is_Some_2 h l Hl) as [sch E].
  rewrite (deref_cons h l rest sch E).
  simpl get_eligible_schemes_loop.
  rewrite (get_eligible_schemes_step_full age income state category h acc l sch E).
  destruct (eligible (full_profile age income state category) sch) eqn:Hel.
  - rewrite filter_cons_True by done.
    rewrite IH.
    2:{ eapply Forall_impl; [exact Hrest|]. intros x Hx. rewrite length_app.
        simpl in *. lia. }
    rewrite (deref_app_l h _ rest Hrest).
    rewrite <- !app_assoc, length_app. simpl. by rewrite Nat.add_1_r.
  - rewrite filter_cons_False by (rewrite Hel; done).
    by rewrite IH.
Qed.

Lemma SCHEMES_valid (h : heap) :
  holds_catalog h -> Forall (fun l => (l < length h)%nat) SCHEMES.
Proof.
  intros [k ->]. apply Forall_forall. intros l Hl.
  unfold SCHEMES in Hl. apply elem_of_seq in Hl. rewrite length_app. lia.
Qed.

Lemma deref_SCHEMES (h : heap) : holds_catalog h -> deref h SCHEMES = SCHEMES_data.
Proof.
  intros [k ->]. unfold SCHEMES.
  rewrite deref_app_l.
  - apply (deref_new SCHEMES_data []).
  - apply Forall_forall. intros l Hl. apply elem_of_seq in Hl. lia.
Qed.

Lemma reason_of_nonempty age income state category sch :
  reason_of (full_profile age income state category) sch <> "".
Proof.
  unfold reason_of.
  eligibility_cases age income state category sch; discriminate.
Qed.

Lemma without_with_reason p sch :
  scheme.eligibilityReason sch = None -> without_reason (with_reason p sch) = sch.
Proof. destruct sch; simpl. by intros ->. Qed.

Lemma SCHEMES_data_no_reason :
  Forall (fun sch => scheme.eligibilityReason sch = None) SCHEMES_data.
Proof. repeat constructor. Qed.

(** C7: for a fully-populated profile, on a heap that holds the catalog,
    [get_eligible_schemes] returns; the records it returns are, in catalog
    order, exactly the catalog records for which [is_eligible] answers
    [true], each with its key [eligibilityReason] set to the explanation of
    [is_eligible], which is not the empty string. *)
Theorem get_eligible_schemes_catalog_order
    (age income : Z) (state category : string) (h : heap)
    (Hcat : holds_catalog h) :
  let p := full_profile age income state category in
  exists h' refs,
    get_eligible_schemes h p = (h', Ok refs)
    /\ deref h' refs
       = map (with_reason p) (filter (fun s => eligible p s = true) SCHEMES_data)
    /\ map without_reason (deref h' refs)
       = filter (fun s => eligible p s = true) SCHEMES_data
    /\ map without_reason (deref h' refs) `sublist_of` SCHEMES_data
    /\ length (deref h' refs) = length refs
    /\ Forall (fun d => exists r, scheme.eligibilityReason d = Some r /\ r <> ""
                                  /\ is_eligible p (without_reason d) = Ok (true, r))
              (deref h' refs).
Proof.
  intros p. unfold get_eligible_schemes.
  pose proof (get_eligible_schemes_loop_full age income state category SCHEMES h []
                (SCHEMES_valid h Hcat)) as Hloop.
  cbv zeta in Hloop. rewrite (deref_SCHEMES h Hcat) in Hloop.
  rewrite app_nil_l in Hloop. fold p in Hloop.
  eexists _, _. split; [exact Hloop|].
  rewrite deref_new.
  assert (Hwo : map without_reason
                  (map (with_reason p) (filter (fun s => eligible p s = true) SCHEMES_data))
                = filter (fun s => eligible p s = true) SCHEMES_data).
  { rewrite map_map. rewrite <- (map_id (filter _ SCHEMES_data)) at 2.
    apply map_ext_in. intros sch Hin. apply without_with_reason.
    apply list_elem_of_In, list_elem_of_filter in Hin as [_ Hin].
    pose proof SCHEMES_data_no_reason as Hno.
    rewrite Forall_forall in Hno. by apply Hno. }
  split; [done|]. split; [exact Hwo|].
  split; [rewrite Hwo; apply sublist_filter|].
  split; [by rewrite length_seq|].
  apply Forall_forall. intros d Hd.
  apply list_elem_of_In, in_map_iff in Hd as (sch & <- & Hin).
  apply list_elem_of_In, list_elem_of_filter in Hin as [Hel Hin].
  exists (reason_of p sch). split; [done|]. split; [apply reason_of_nonempty|].
  rewrite without_with_reason.
  2:{ pose proof SCHEMES_data_no_reason as Hno.
      rewrite Forall_forall in Hno. by apply Hno. }
  unfold eligible in Hel. unfold reason_of.
  destruct (is_eligible p sch) as [[[] r]|]; done.
Qed.

Lemma get_eligible_schemes_catalog_order_witness :
  holds_catalog initial_heap
  /\ exists h' refs,
       get_eligible_schemes initial_heap (full_profile 20 200000 "Maharashtra" "General")
       = (h', Ok refs)
       /\ map scheme.id (deref h' refs) = ["scheme_1"; "scheme_4"; "scheme_6"; "scheme_7"].
Proof.
  assert (Hcat : holds_catalog initial_heap) by (exists []; reflexivity).
  split; [exact Hcat|].
  destruct (get_eligible_schemes_catalog_order 20 200000 "Maharashtra" "General"
              initial_heap Hcat) as (h' & refs & Hget & Hd & _).
  exists h', refs. split; [exact Hget|]. rewrite Hd. reflexivity.
Defined.

(** One iteration only appends to the heap, and a reference it adds to the
    result is that of the appended object. *)
Lemma get_eligible_schemes_step_frame p (h : heap) acc l :
  h `prefix_of` (get_eligible_schemes_step p h acc l).1
  /\ forall refs, (get_eligible_schemes_step p h acc l).2 = Ok refs ->
       exists new, refs = acc ++ new
         /\ Forall (fun x => (length h <= x < length (get_eligible_schemes_step p h acc l).1)%nat) new.
Proof.
  unfold get_eligible_schemes_step.
  assert (Hsame : h `prefix_of` h /\ forall refs, Ok acc = Ok refs ->
            exists new, refs = acc ++ new
                        /\ Forall (fun x => (length h <= x < length h)%nat) new).
  { split; [done|]. intros refs [= <-]. exists []. by rewrite app_nil_r. }
  destruct (h !! l) as [sch|] eqn:E; [|exact Hsame].
  destruct (is_eligible p sch) as [[[] reason]|e]; simpl; [|exact Hsame|by split].
  destruct (copy_then_setitem h l sch (scheme.set_eligibilityReason reason) E)
    as (h1 & -> & ->). simpl.
  split; [by apply prefix_app_r|].
  intros refs [= <-]. exists [length h]. split; [done|].
  repeat constructor. rewrite length_app. simpl. lia.
Qed.

Lemma get_eligible_schemes_loop_frame p (schemes : list loc) :
  forall (h : heap) (acc : list loc),
  h `prefix_of` (get_eligible_schemes_loop p schemes h acc).1
  /\ forall refs, (get_eligible_schemes_loop p schemes h acc).2 = Ok refs ->
       exists new, refs = acc ++ new
         /\ Forall (fun x => (length h <= x
                              < length (get_eligible_schemes_loop p schemes h acc).1)%nat) new.
Proof.
  induction schemes as [|l rest IH]; intros h acc; simpl.
  { split; [done|]. intros refs [= <-]. exists []. by rewrite app_nil_r. }
  destruct (get_eligible_schemes_step_frame p h acc l) as [Hpre Hrefs].
  destruct (get_eligible_schemes_step p h acc l) as [h1 [acc1|e]]; simpl in *.
  - destruct (IH h1 acc1) as [Hpre' Hrefs'].
    split; [by etrans|].
    intros refs Hres.
    destruct (Hrefs acc1 eq_refl) as (new1 & -> & Hnew1).
    destruct (Hrefs' refs Hres) as (new2 & -> & Hnew2).
    exists (new1 ++ new2). split; [by rewrite app_assoc|].
    apply prefix_length in Hpre, Hpre'.
    apply Forall_app. split.
    + eapply Forall_impl; [exact Hnew1|]. simpl. lia.
    + eapply Forall_impl; [exact Hnew2|]. simpl. lia.
  - split; [done|]. by intros refs.
Qed.

(** C9: whatever the profile, and whether it returns or raises,
    [get_eligible_schemes] leaves every object of the heap as it was, the
    catalog records among them: the heap only grows at its end. The references
    it returns are those of objects created by the call, none of which is a
    catalog record. *)
Theorem get_eligible_schemes_frame (h : heap) (p : UserProfile.t) :
  let h' := (get_eligible_schemes h p).1 in
  h `prefix_of` h'
  /\ (forall l d, h !! l = Some d -> h' !! l = Some d)
  /\ (holds_catalog h -> holds_catalog h' /\ deref h' SCHEMES = SCHEMES_data)
  /\ (forall refs, (get_eligible_schemes h p).2 = Ok refs ->
        Forall (fun l => (length h <= l < length h')%nat) refs
        /\ (holds_catalog h -> forall l, l ∈ refs -> l ∉ SCHEMES)).
Proof.
  intros h'. subst h'. unfold get_eligible_schemes.
  destruct (get_eligible_schemes_loop_frame p SCHEMES h []) as [Hpre Hrefs].
  split; [exact Hpre|]. split; [|split].
  - intros l d Hl. by eapply prefix_lookup_Some.
  - intros Hcat.
    assert (Hcat' : holds_catalog (get_eligible_schemes_loop p SCHEMES h []).1)
      by (unfold holds_catalog in *; by etrans).
    split; [exact Hcat'|]. by apply deref_SCHEMES.
  - intros refs Hres. destruct (Hrefs refs Hres) as (new & -> & Hnew).
    simpl. split; [exact Hnew|].
    intros Hcat l Hl Hin. rewrite Forall_forall in Hnew.
    specialize (Hnew l Hl). simpl in Hnew.
    pose proof (SCHEMES_valid h Hcat) as Hvalid. rewrite Forall_forall in Hvalid.
    specialize (Hvalid l Hin). simpl in Hvalid. lia.
Qed.

(** The catalog after a call on the heap of a new process. *)
Lemma get_eligible_schemes_frame_witness :
  deref (get_eligible_schemes initial_heap
           (full_profile 20 200000 "Maharashtra" "General")).1 SCHEMES
  = SCHEMES_data.
Proof.
  apply (get_eligible_schemes_frame initial_heap
           (full_profile 20 200000 "Maharashtra" "General")).
  exists []. reflexivity.
Defined.

(** ** The text-generation fallback *)

Section Fallback.

Variable gemini_chat_invoke : list LLMService.chat_message -> result string.

Lemma generate_response_unavailable llm msg schemes profile history :
  LLMService.available llm = false ->
  LLMService.generate_response gemini_chat_invoke llm msg schemes profile history
  = LLMService._generate_with_template msg schemes.
Proof. intros Hav. unfold LLMService.generate_response. by rewrite Hav. Qed.

Lemma generate_response_failure llm msg schemes profile history e :
  gemini_chat_invoke (LLMService.build_messages msg schemes history) = Raise e ->
  LLMService.generate_response gemini_chat_invoke llm msg schemes profile history
  = LLMService._generate_with_template msg schemes.
Proof.
  intros Hfail. unfold LLMService.generate_response, LLMService._generate_with_gemini.
  rewrite Hfail. simpl. by destruct (LLMService.available llm).
Qed.

(** C8: when the language-model service is unavailable, or the call to it
    raises, [generate_response] still returns a reply, and the reply is
    the template chosen by the number of eligible schemes alone: none, the
    no-match message; one, the name and the benefits of that scheme; two or
    three, the count and the names; more than three, the count only. The
    user's message, the profile and the history play no part. *)
Theorem generate_response_fallback
    (llm : LLMService.t) (msg : string) (eligible_schemes : list scheme.t)
    (profile : UserProfile.t) (history : list LLMService.history_entry)
    (Hdown : LLMService.available llm = false
             \/ exists e, gemini_chat_invoke
                            (LLMService.build_messages msg eligible_schemes history)
                          = Raise e) :
  let reply :=
    LLMService.generate_response gemini_chat_invoke llm msg eligible_schemes
                                 profile history in
  let count := PyStr.str (Z.of_nat (length eligible_schemes)) in
  (length eligible_schemes = 0%nat ->
     reply = "Based on your profile, I couldn't find any schemes you're currently eligible for. However, eligibility criteria can change, so I recommend checking back periodically or exploring options to meet the requirements for specific schemes.")
  /\ (forall sch, eligible_schemes = [sch] ->
        reply = "Great news! You're eligible for **" +:+ scheme.name sch
                +:+ "**. This scheme offers: " +:+ scheme.benefits sch)
  /\ ((2 <= length eligible_schemes <= 3)%nat ->
        reply = "Excellent! You're eligible for " +:+ count +:+ " schemes: "
                +:+ PyStr.join ", " (map (fun s => "**" +:+ scheme.name s +:+ "**")
                                         eligible_schemes)
                +:+ ". Each scheme has unique benefits tailored to your needs. Check out the details below!")
  /\ ((3 < length eligible_schemes)%nat ->
        reply = "Wonderful! You're eligible for **" +:+ count
                +:+ " government schemes**! This gives you multiple options to choose from based on your specific educational goals. Review the schemes below to see which ones align best with your needs.").
Proof.
  intros reply count.
  assert (Hreply : reply = LLMService._generate_with_template msg eligible_schemes).
  { subst reply. destruct Hdown as [Hav|[e Hfail]].
    - by apply generate_response_unavailable.
    - by eapply generate_response_failure. }
  rewrite Hreply. clear Hreply reply Hdown. subst count.
  unfold LLMService._generate_with_template, LLMService.count_str.
  repeat split.
  - intros Hlen. by destruct eligible_schemes.
  - by intros sch ->.
  - intros [H2 H3]. destruct eligible_schemes as [|a [|b l]]; simpl in *; [lia..|].
    replace (length l <=? 1)%nat with true; [done|].
    symmetry. apply Nat.leb_le. lia.
  - intros H3. destruct eligible_schemes as [|a [|b l]]; simpl in *; [lia..|].
    replace (length l <=? 1)%nat with false; [done|].
    symmetry. apply Nat.leb_gt. lia.
Qed.

End Fallback.

Lemma generate_response_fallback_witness :
  LLMService.generate_response (fun _ => Raise ValueError) (LLMService.Build true)
    "Which schemes can I apply for?" [] UserProfile.empty []
  = "Based on your profile, I couldn't find any schemes you're currently eligible for. However, eligibility criteria can change, so I recommend checking back periodically or exploring options to meet the requirements for specific schemes.".
Proof.
  apply (generate_response_fallback (fun _ => Raise ValueError) (LLMService.Build true)
           "Which schemes can I apply for?" [] UserProfile.empty []).
  - right. exists ValueError. reflexivity.
  - reflexivity.
Defined.

(** ** Profile extraction *)


(** Extraction raises only in the income branch, when the scaled number
    has no integer value. *)
Lemma extract_profile_info_raises message p e :
  extract_profile_info message p = Raise e ->
  UserProfile.age p <> None /\ UserProfile.income p = None
  /\ exists g, income_search (PyStr.strip (PyStr.lower message)) = Some g
               /\ PyFloat.to_int (scaled_income (PyStr.strip (PyStr.lower message)) g)
                  = Raise e.
Proof.
  unfold extract_profile_info.
  destruct p as [[a|] [i|] [s|] [c|]]; simpl;
    intros Hext; repeat case_match; simplify_eq;
    (split; [done|split; [done|]]); eexists; split; try done.
  all: destruct (PyFloat.to_int _); simpl in *; congruence.
Qed.

(** C5 (what the code does on a number too large for a float): with the
    age known and the income unset, the message [huge_number] makes
    [float] return infinity and [int] raise [OverflowError], so
    [extract_profile_info] signals failure instead of leaving the income
    unset. *)
Theorem extract_profile_info_overflow :
  extract_profile_info huge_number (UserProfile.Build (Some 20) None None None)
  = Raise OverflowError.
Proof. vm_compute. reflexivity. Qed.

(** C6 (what the code stores for a fraction of a lakh): with the age known
    and the income unset, the message "2.3 lakh" holds the numeral 2.3 and
    mentions the lakh, so the income of the specification is 2.3 times
    100,000, that is 230,000; the code multiplies binary64 floats, the
    product falls just below 230,000, and truncation stores 229,999. *)
Theorem extract_income_lakh_fraction :
  income_search (PyStr.strip (PyStr.lower "2.3 lakh")) = Some "2.3"
  /\ exact_income "2.3 lakh" "2.3" = 230000
  /\ extract_profile_info "2.3 lakh" (UserProfile.Build (Some 20) None None None)
     = Ok (UserProfile.Build (Some 20) (Some 229999) None None).
Proof. repeat split; vm_compute; reflexivity. Qed.

(** The unit is read off the whole message: the [l] of "annually" turns
    200000 rupees into 200000 lakhs, and the [k] of "Kerala" turns 900 into
    900 thousands. *)
Lemma income_unit_from_unrelated_letters :
  extract_profile_info "200000 annually" (UserProfile.Build (Some 20) None None None)
  = Ok (UserProfile.Build (Some 20) (Some 20000000000) None None)
  /\ extract_profile_info "900 rupees, I come from Kera" (UserProfile.Build (Some 20) None None None)
     = Ok (UserProfile.Build (Some 20) (Some 900000) None None)
  /\ extract_profile_info "200000 rupees" (UserProfile.Build (Some 20) None None None)
     = Ok (UserProfile.Build (Some 20) (Some 200000) None None).
Proof. repeat split; vm_compute; reflexivity. Qed.

(** The arithmetic is that of binary64 floats: the float nearest to 4.35,
    times 100000, is just below 435000, while 2.5 is a float and its product
    is exact. *)
Lemma income_float_arithmetic :
  extract_profile_info "4.35 lakh" (UserProfile.Build (Some 20) None None None)
  = Ok (UserProfile.Build (Some 20) (Some 434999) None None)
  /\ extract_profile_info "2.5 lakh" (UserProfile.Build (Some 20) None None None)
     = Ok (UserProfile.Build (Some 20) (Some 250000) None None)
  /\ extract_profile_info "1,50,000.75" (UserProfile.Build (Some 20) None None None)
     = Ok (UserProfile.Build (Some 20) (Some 150000) None None).
Proof. repeat split; vm_compute; reflexivity. Qed.

(** ** Session identifiers *)





(** Identifiers that are no UUID pass, upper-case digits do not. *)
Lemma VALID_SESSION_ID_PATTERN_match_examples :
  VALID_SESSION_ID_PATTERN_match "123e4567-e89b-12d3-a456-426614174000" = true
  /\ VALID_SESSION_ID_PATTERN_match "------------------------------------" = true
  /\ VALID_SESSION_ID_PATTERN_match "-123e4567e89b12d3a456426614174000---" = true
  /\ VALID_SESSION_ID_PATTERN_match "123E4567-E89B-12D3-A456-426614174000" = false
  /\ VALID_SESSION_ID_PATTERN_match "123e4567-e89b-12d3-a456-42661417400" = false
  /\ VALID_SESSION_ID_PATTERN_match "not-a-uuid" = false.
Proof. repeat split. Qed.

(** ** The chat endpoint and the session identifier *)

Section ChatProperties.

Variable gemini_chat_invoke : list LLMService.chat_message -> result string.
Variable sanitize_response : string -> string.

(** C4, as the code has it: a request whose session identifier fails
    validation is rejected with a client error, status 400, or 429 when
    the rate limiter turns it away first. No session is created or
    changed: the session table and the heap are as before. The chat rate
    limiter is consulted under the identifier before validation, and its
    state after that call is the one state the request leaves changed. *)
Theorem chat_malformed_session_id
    (st : server) (request : ChatRequest) (env : environment)
    (Hbad : VALID_SESSION_ID_PATTERN_match (session_id request) = false) :
  let limited :=
    RateLimiter.is_allowed (srv_chat_limiter st) (now_limiter env)
                           (session_id request) in
  let out := chat gemini_chat_invoke sanitize_response st request env in
  out.1 = set_chat_limiter limited.1 st
  /\ out.2 = (if limited.2.1
              then Raise (HTTPException 400
                            "Invalid session_id format. Must be a valid UUID.")
              else Raise (HTTPException 429
                            "Too many requests. Please wait before sending another message."))
  /\ srv_sessions out.1 = srv_sessions st
  /\ srv_heap out.1 = srv_heap st
  /\ srv_llm_service out.1 = srv_llm_service st.
Proof.
  intros limited out. subst out limited. unfold chat.
  destruct (RateLimiter.is_allowed (srv_chat_limiter st) (now_limiter env)
                                   (session_id request))
    as [limiter [[] remaining]]; simpl; [|done].
  unfold get_or_create_session, validate_session_id. rewrite Hbad. simpl. done.
Qed.

End ChatProperties.

Lemma chat_malformed_session_id_witness :
  (chat (fun _ => Raise ValueError) (fun text => text)
        (initial_server (LLMService.Build false))
        {| session_id := "not-a-uuid"; message := "Hello";
           user_profile := UserProfile.empty |}
        {| now_limiter := 0; now_session := 0; uuid4 := "" |}).2
  = Raise (HTTPException 400 "Invalid session_id format. Must be a valid UUID.").
Proof.
  apply (chat_malformed_session_id (fun _ => Raise ValueError) (fun text => text)
           (initial_server (LLMService.Build false))
           {| session_id := "not-a-uuid"; message := "Hello";
              user_profile := UserProfile.empty |}
           {| now_limiter := 0; now_session := 0; uuid4 := "" |}).
  reflexivity.
Defined.

(** A rejected identifier does leave a trace: the request with the
    identifier "not-a-uuid" gets status 400 and yet the server is not as
    before, the rate limiter having recorded the request. *)
Lemma chat_malformed_session_id_side_effect :
  ~ (forall (invoke : list LLMService.chat_message -> result string)
            (sanitize : string -> string)
            (st : server) (request : ChatRequest) (env : environment),
       VALID_SESSION_ID_PATTERN_match (session_id request) = false ->
       (chat invoke sanitize st request env).1 = st).
Proof.
  intros Hclaim.
  specialize (Hclaim (fun _ => Raise ValueError) (fun text => text)
                (initial_server (LLMService.Build false))
                {| session_id := "not-a-uuid"; message := "Hello";
                   user_profile := UserProfile.empty |}
                {| now_limiter := 0; now_session := 0; uuid4 := "" |}
                eq_refl).
  apply (f_equal (fun st => timestamps (srv_chat_limiter st) "not-a-uuid")) in Hclaim.
  vm_compute in Hclaim. discriminate Hclaim.
Qed.

(** C10 (what the code does on a trailing line feed): the 37-character
    string [newline_session_id], a well-formed identifier followed by a line
    feed, passes [validate_session_id], because [$] also matches just before
    a final line feed; a chat request that carries it is served and a
    session is created under it. *)
Theorem validate_session_id_trailing_newline :
  String.length newline_session_id = 37%nat
  /\ validate_session_id newline_session_id = Ok tt
  /\ forall invoke sanitize llm,
       let request := {| session_id := newline_session_id; message := "Hello";
                         user_profile := UserProfile.empty |} in
       let env := {| now_limiter := 0; now_session := 0; uuid4 := "token" |} in
       let out := chat invoke sanitize (initial_server llm) request env in
       srv_sessions out.1 !! newline_session_id
       = Some (Session.Build UserProfile.empty
                 [("user", "Hello");
                  ("assistant", "To help you find the right schemes, I need a few details. Let's start with your age. How old are you?")]
                 0 "token")
       /\ exists r, out.2 = Ok r.
Proof.
  split; [reflexivity|]. split; [reflexivity|].
  intros invoke sanitize llm request env out. split.
  - vm_compute. reflexivity.
  - eexists. vm_compute. reflexivity.
Qed.

(** The burst of the SMS limiter: five sends in one minute, then a sixth. *)
Lemma is_allowed_sliding_window_witness :
  (calls sms_limiter "9876543210" [0; 10000000; 20000000; 30000000; 40000000]).2
  = [(true, 5); (true, 4); (true, 3); (true, 2); (true, 1)]
  /\ RateLimiter.is_allowed
       (calls sms_limiter "9876543210" [0; 10000000; 20000000; 30000000; 40000000]).1
       50000000 "9876543210"
     = ((calls sms_limiter "9876543210" [0; 10000000; 20000000; 30000000; 40000000]).1,
        (false, 0)).
Proof.
  destruct (is_allowed_sliding_window sms_limiter "9876543210") as (_ & Hburst & _).
  destruct (Hburst [0; 10000000; 20000000; 30000000; 40000000] 50000000)
    as (Hres & Hrej & _ & Hsame).
  - reflexivity.
  - reflexivity.
  - intros t t' Ht Ht'. unfold RateLimiter.timedelta_seconds. simpl.
    repeat (apply elem_of_cons in Ht as [->|Ht]);
      try (by apply elem_of_nil in Ht);
      repeat (apply elem_of_cons in Ht' as [->|Ht']);
      try (by apply elem_of_nil in Ht'); lia.
  - split; [exact Hres|].
    rewrite (surjective_pairing (RateLimiter.is_allowed _ _ _)).
    rewrite Hrej, Hsame; [reflexivity|]. simpl. lia.
Defined.

(** * Further properties *)

(** ** The rate limiter *)












(** ** Sessions *)








(** ** The chat turn *)



Section ChatTurn.

Variable gemini_chat_invoke : list LLMService.chat_message -> result string.
Variable sanitize : string -> string.







End ChatTurn.




(** ** Profile extraction *)

(** *** Text containment *)











(** *** Letter case *)

Lemma code_bounded (c : ascii) : (PyStr.code c < 256)%nat.
Proof. apply nat_ascii_bounded. Qed.







































(** ** Validation of identifiers and phone numbers *)







(** ** More on the eligibility engine *)












(** ** The eligibility endpoint *)



(** ** The SMS endpoint *)




Section SendSMS.

Variable twilio_create : string -> string -> result string.



End SendSMS.



(** ** Strings *)


Lemma length_string_of_list l : String.length (string_of_list_ascii l) = length l.
Proof. induction l as [|c l IH]; [done|]. simpl. by rewrite IH. Qed.

Lemma length_list_of_string s : length (list_ascii_of_string s) = String.length s.
Proof. induction s as [|c s IH]; [done|]. simpl. by rewrite IH. Qed.





Lemma length_rev_string s : String.length (PyStr.rev_string s) = String.length s.
Proof.
  unfold PyStr.rev_string.
  by rewrite length_string_of_list, length_rev, length_list_of_string.
Qed.

Lemma length_lstrip s : (String.length (PyStr.lstrip s) <= String.length s)%nat.
Proof.
  induction s as [|c s IH]; simpl; [done|].
  destruct (PyStr.is_space c); simpl; lia.
Qed.

Lemma length_strip s : (String.length (PyStr.strip s) <= String.length s)%nat.
Proof.
  unfold PyStr.strip. rewrite length_rev_string.
  etrans; [apply length_lstrip|]. rewrite length_rev_string. apply length_lstrip.
Qed.





(** ** The response sanitizer *)

























